(** * pandas.core.ops.methods: generation and pinning of operator methods

    A shallow embedding of [pandas/core/ops/methods.py]: the lookup of the
    operation wrappers by container type, the construction of the table of
    flex methods, the in-place wrapper around a non-mutating special method,
    and the pinning of the tables onto a class.

    Python objects with identity (the containers) live in a store indexed by
    locations; calls that can raise run in a small state-and-exception
    monad; dictionaries are insertion-ordered association lists. *)

From stdpp Require Import gmap strings list fin_maps.
From Stdlib Require Import Ascii String ZArith Lia.

Open Scope string_scope.
Open Scope list_scope.

(** ** Python strings: [str.strip(chars)] *)

Module PyStr.

(** [c in chars]: the argument of [strip] is a set of characters. *)
Definition in_chars (c : ascii) (chars : string) : bool :=
  existsb (Ascii.eqb c) (list_ascii_of_string chars).

Fixpoint lstrip_list (chars : string) (s : list ascii) : list ascii :=
  match s with
  | [] => []
  | c :: s' => if in_chars c chars then lstrip_list chars s' else s
  end.

Definition lstrip (chars s : string) : string :=
  string_of_list_ascii (lstrip_list chars (list_ascii_of_string s)).

Definition rstrip (chars s : string) : string :=
  string_of_list_ascii
    (rev (lstrip_list chars (rev (list_ascii_of_string s)))).

(** [s.strip(chars)]: drop leading and trailing characters of [chars]. *)
Definition strip (chars s : string) : string :=
  rstrip chars (lstrip chars s).

(** [s.startswith(p)] *)
Fixpoint startswith (p s : string) : bool :=
  match p, s with
  | EmptyString, _ => true
  | String a p', String b s' => Ascii.eqb a b && startswith p' s'
  | String _ _, EmptyString => false
  end.

Fixpoint drop_chars (n : nat) (s : string) : string :=
  match n, s with
  | O, _ => s
  | S n', String _ s' => drop_chars n' s'
  | S _, EmptyString => EmptyString
  end.

End PyStr.

(** ** Python dictionaries

    A [dict] keeps its keys unique and in insertion order; assigning to a
    key that is present replaces the value where it stands. *)

Module Dict.
Section dict.
Context {V : Type}.

Definition t := list (string * V).

Definition empty : t := [].

(** [k in d], [d.get(k)] *)
Fixpoint get (k : string) (d : t) : option V :=
  match d with
  | [] => None
  | (k', v) :: d' => if String.eqb k k' then Some v else get k d'
  end.

Definition contains (k : string) (d : t) : bool :=
  match get k d with Some _ => true | None => false end.

(** [d[k] = v] *)
Fixpoint set (k : string) (v : V) (d : t) : t :=
  match d with
  | [] => [(k, v)]
  | (k', v') :: d' =>
      if String.eqb k k' then (k, v) :: d' else (k', v') :: set k v d'
  end.

(** [d.update(other)]: the items of [other] are assigned in order. *)
Definition update (d other : t) : t :=
  fold_left (fun acc kv => set (fst kv) (snd kv) acc) other d.

(** [dict(k1=v1, ..., kn=vn)] *)
Definition of_kwargs (kw : list (string * V)) : t := update empty kw.

(** [{fk(k): v for k, v in d.items()}] *)
Definition map_keys (fk : string -> string) (d : t) : t :=
  fold_left (fun acc kv => set (fk (fst kv)) (snd kv) acc) d empty.

Definition keys (d : t) : list string := map fst d.

End dict.
Arguments t : clear implicits.
End Dict.

(** ** Exceptions and the two monads *)

Inductive exn : Type :=
| UnboundLocalError (name : string)
| AssertionError
| KeyError (key : string)
| AttributeError (name : string)
| ReferenceError
| TypeError (msg : string)
| ValueError (msg : string).

(** Class-definition time: no container exists yet, a computation either
    raises or returns. *)
Definition result (A : Type) : Type := exn + A.

Definition rbind {A B : Type} (c : result A) (k : A -> result B) : result B :=
  match c with
  | inl e => inl e
  | inr a => k a
  end.

Declare Scope result_scope.
Delimit Scope result_scope with result.
Notation "'let!' x ':=' c 'in' k" := (rbind c (fun x => k))
  (at level 10, x pattern, c at level 100, k at level 200) : result_scope.

(** [d[k]]: a missing key raises [KeyError]. *)
Definition subscript {V : Type} (d : Dict.t V) (k : string) : result V :=
  match Dict.get k d with
  | Some v => inr v
  | None => inl (KeyError k)
  end.

(** [assert b] *)
Definition py_assert (b : bool) : result unit :=
  if b then inr tt else inl AssertionError.

(** Call time: a computation runs on the store and either returns a value
    or raises, in both cases with the store as it has become. *)
Inductive outcome (S A : Type) : Type :=
| Ok (a : A) (s : S)
| Raise (e : exn) (s : S).
Arguments Ok {S A} a s.
Arguments Raise {S A} e s.

Definition M (S A : Type) : Type := S -> outcome S A.

Definition ret {S A : Type} (a : A) : M S A := fun s => Ok a s.

Definition raise {S A : Type} (e : exn) : M S A := fun s => Raise e s.

Definition bind {S A B : Type} (c : M S A) (k : A -> M S B) : M S B :=
  fun s =>
    match c s with
    | Ok a s' => k a s'
    | Raise e s' => Raise e s'
    end.

Declare Scope py_scope.
Delimit Scope py_scope with py.
Notation "'let*' x ':=' c 'in' k" := (bind c (fun x => k))
  (at level 10, x pattern, c at level 100, k at level 200) : py_scope.

(** ** Objects the module works on *)

(** The binary primitives handed to the wrapper factories: the functions of
    [operator], the reflected ones of [pandas.core.ops.roperator], and the
    builtin [divmod]. *)
Inductive primitive : Type :=
| operator_add | operator_sub | operator_mul | operator_truediv
| operator_floordiv | operator_mod | operator_pow
| radd | rsub | rmul | rtruediv | rfloordiv | rmod | rpow
| divmod | rdivmod
| operator_eq | operator_ne | operator_lt | operator_gt
| operator_le | operator_ge.

(** The three wrapper factories imported from [pandas.core.ops]. *)
Inductive wrapper_factory : Type :=
| flex_method_SERIES
| flex_arith_method_FRAME
| flex_comp_method_FRAME.

(** A location of the store: the identity of a container. *)
Definition loc : Type := positive.

(** A container: its storage (the block manager, with its axes and its
    values) and, when it is a cached view of a parent, the reference to
    that parent. *)
Record NDFrame (Mgr : Type) : Type :=
  { _mgr : Mgr;
    _cacher : option loc }.
Arguments _mgr {Mgr} _.
Arguments _cacher {Mgr} _.
Arguments Build_NDFrame {Mgr} _ _.

(** A Python function taking [(self, other)]; what may stand on the right
    of an operator is left open. *)
Record function (Mgr Operand : Type) : Type :=
  { __name__ : string;
    __call__ : loc -> Operand -> M (gmap loc (NDFrame Mgr)) loc }.
Arguments __name__ {Mgr Operand} _.
Arguments __call__ {Mgr Operand} _ _ _ _.
Arguments Build_function {Mgr Operand} _ _.

(** Modelled from the spec: [ABCSeries] and [ABCDataFrame] of
    [pandas.core.dtypes.generic] are not part of this module; a container
    type carries the tag of its kind, the 1-D labeled container being
    tagged ["series"] and the 2-D one ["dataframe"].  The namespace holds
    the attributes reachable from the class. *)
Record class (Mgr Operand : Type) : Type :=
  { _typ : string;
    namespace : Dict.t (function Mgr Operand) }.
Arguments _typ {Mgr Operand} _.
Arguments namespace {Mgr Operand} _.
Arguments Build_class {Mgr Operand} _ _.

(** What the in-place wrapper needs of the engines behind the containers:
    the alignment of a block manager on the axes of another one, the test
    that two managers have the same axes, and the check that a derived
    view may be written to. *)
Class Engine (Mgr : Type) : Type :=
  { reindex : Mgr -> Mgr -> result Mgr;
    same_axes : Mgr -> Mgr -> bool;
    _check_setitem_copy : loc -> M (gmap loc (NDFrame Mgr)) unit }.

Section Methods.

Context {Mgr Operand : Type} {engine : Engine Mgr}.

#[local] Abbreviation heap := (gmap loc (NDFrame Mgr)).
#[local] Abbreviation method_t := (function Mgr Operand).
#[local] Abbreviation class_t := (class Mgr Operand).

Definition issubclass_ABCSeries (cls : class_t) : bool :=
  String.eqb (_typ cls) "series".

Definition issubclass_ABCDataFrame (cls : class_t) : bool :=
  String.eqb (_typ cls) "dataframe".

(** [cls.name] *)
Definition getattr (cls : class_t) (name : string) : result method_t :=
  match Dict.get name (namespace cls) with
  | Some v => inr v
  | None => inl (AttributeError name)
  end.

(** [setattr(cls, name, method)] *)
Definition setattr (cls : class_t) (name : string) (method : method_t)
  : class_t :=
  {| _typ := _typ cls; namespace := Dict.set name method (namespace cls) |}.

(** *** [_get_method_wrappers]

    The two locals are unbound until a branch assigns them; reading an
    unbound local raises [UnboundLocalError]. *)
Definition _get_method_wrappers (cls : class_t)
  : result (wrapper_factory * wrapper_factory) :=
  let '(arith_flex, comp_flex) :=
    if issubclass_ABCSeries cls then
      (Some flex_method_SERIES, Some flex_method_SERIES)
    else if issubclass_ABCDataFrame cls then
      (Some flex_arith_method_FRAME, Some flex_comp_method_FRAME)
    else (None, None) in
  match arith_flex, comp_flex with
  | Some a, Some c => inr (a, c)
  | None, _ => inl (UnboundLocalError "arith_flex")
  | Some _, None => inl (UnboundLocalError "comp_flex")
  end.

(** *** [_create_methods] *)
Definition _create_methods (cls : class_t)
    (arith_method comp_method : primitive -> method_t)
  : result (Dict.t method_t) :=
  let have_divmod := issubclass_ABCSeries cls in
  let new_methods := Dict.empty in
  let new_methods :=
    Dict.update new_methods
      (Dict.of_kwargs
         [ ("add", arith_method operator_add);
           ("radd", arith_method radd);
           ("sub", arith_method operator_sub);
           ("mul", arith_method operator_mul);
           ("truediv", arith_method operator_truediv);
           ("floordiv", arith_method operator_floordiv);
           ("mod", arith_method operator_mod);
           ("pow", arith_method operator_pow);
           ("rmul", arith_method rmul);
           ("rsub", arith_method rsub);
           ("rtruediv", arith_method rtruediv);
           ("rfloordiv", arith_method rfloordiv);
           ("rpow", arith_method rpow);
           ("rmod", arith_method rmod) ]) in
  (let! v_truediv := subscript new_methods "truediv" in
   let new_methods := Dict.set "div" v_truediv new_methods in
   let! v_rtruediv := subscript new_methods "rtruediv" in
   let new_methods := Dict.set "rdiv" v_rtruediv new_methods in
   let new_methods :=
     if have_divmod then
       let new_methods :=
         Dict.set "divmod" (arith_method divmod) new_methods in
       Dict.set "rdivmod" (arith_method rdivmod) new_methods
     else new_methods in
   let new_methods :=
     Dict.update new_methods
       (Dict.of_kwargs
          [ ("eq", comp_method operator_eq);
            ("ne", comp_method operator_ne);
            ("lt", comp_method operator_lt);
            ("gt", comp_method operator_gt);
            ("le", comp_method operator_le);
            ("ge", comp_method operator_ge) ]) in
   let new_methods := Dict.map_keys (PyStr.strip "_") new_methods in
   inr new_methods)%result.

(** *** [_add_methods] *)
Definition _add_methods (cls : class_t) (new_methods : Dict.t method_t)
  : class_t :=
  fold_left (fun c kv => setattr c (fst kv) (snd kv)) new_methods cls.

(** *** [add_flex_arithmetic_methods]

    The wrapper factories live in [pandas.core.ops]; calling one on a
    primitive gives the flex method. *)
Variable call_factory : wrapper_factory -> primitive -> method_t.

(** The names the assertion of [add_flex_arithmetic_methods] looks for. *)
Definition opt_out_names : list string := ["ror_"; "rxor"; "rand_"].

(** [not any(kname in new_methods for kname in ("ror_", "rxor", "rand_"))] *)
Definition opt_out_check (new_methods : Dict.t method_t) : bool :=
  negb (existsb (fun kname => Dict.contains kname new_methods) opt_out_names).

(** The table as it stands when [_add_methods] is reached. *)
Definition flex_new_methods (cls : class_t) : result (Dict.t method_t) :=
  (let! wrappers := _get_method_wrappers cls in
   let flex_arith_method := fst wrappers in
   let flex_comp_method := snd wrappers in
   let! new_methods :=
     _create_methods cls (call_factory flex_arith_method)
                         (call_factory flex_comp_method) in
   let! v_mul := subscript new_methods "mul" in
   let! v_sub := subscript new_methods "sub" in
   let! v_div := subscript new_methods "div" in
   let new_methods :=
     Dict.update new_methods
       (Dict.of_kwargs
          [ ("multiply", v_mul); ("subtract", v_sub); ("divide", v_div) ]) in
   let! _ := py_assert (opt_out_check new_methods) in
   inr new_methods)%result.

Definition add_flex_arithmetic_methods (cls : class_t) : result class_t :=
  (let! new_methods := flex_new_methods cls in
   inr (_add_methods cls new_methods))%result.

(** *** The collaborators of the in-place wrapper

    [_reset_cacher], [reindex_like] and [_update_inplace] are methods of
    the containers, defined outside this module. *)

(** [obj.attr] on a location that holds no object cannot happen in
    Python; the model raises [ReferenceError] there. *)
Definition deref (l : loc) : M heap (NDFrame Mgr) :=
  fun h =>
    match h !! l with
    | Some o => Ok o h
    | None => Raise ReferenceError h
    end.

Definition store (l : loc) (o : NDFrame Mgr) : M heap unit :=
  fun h => Ok tt (<[l := o]> h).

(** A new object, at a location not yet in use. *)
Definition alloc (o : NDFrame Mgr) : M heap loc :=
  fun h => let l := fresh (dom h) in Ok l (<[l := o]> h).

Definition lift {A : Type} (c : result A) : M heap A :=
  fun h =>
    match c with
    | inl e => Raise e h
    | inr a => Ok a h
    end.

(** Modelled from the spec: [_reset_cacher], which clears the cache
    linkage of the receiver to the parent it is a view of. *)
Definition _reset_cacher (self : loc) : M heap unit :=
  (let* o := deref self in
   store self {| _mgr := _mgr o; _cacher := None |})%py.

(** The storage [m] realigned on the axes of [target]; without [copy] a
    manager that is aligned already is taken as it is. *)
Definition realign (copy : bool) (m target : Mgr) : result Mgr :=
  if negb copy && same_axes m target then inr m else reindex m target.

(** Modelled from the spec: [reindex_like], which realigns the receiver
    to the labels of [other] and duplicates no storage except where the
    realignment requires it: with [copy=False] an aligned receiver is
    returned itself, otherwise the realigned storage is a new container. *)
Definition reindex_like (self other : loc) (copy : bool) : M heap loc :=
  (let* o := deref self in
   let* t := deref other in
   if negb copy && same_axes (_mgr o) (_mgr t) then ret self
   else
     let* m := lift (reindex (_mgr o) (_mgr t)) in
     alloc {| _mgr := m; _cacher := None |})%py.

(** Modelled from the spec: [_update_inplace], which commits the storage
    of [result] into the receiver; the check of the validity of a derived
    view runs only with [verify_is_copy]. *)
Definition _update_inplace (self result : loc) (verify_is_copy : bool)
  : M heap unit :=
  (let* o := deref self in
   let* r := deref result in
   let* _ := store self {| _mgr := _mgr r; _cacher := _cacher o |} in
   if verify_is_copy then _check_setitem_copy self else ret tt)%py.

(** *** [_wrap_inplace_method] and its inner [f] *)
Definition f (method : method_t) (self : loc) (other : Operand) : M heap loc :=
  (let* result := __call__ method self other in
   let* _ := _reset_cacher self in
   let* aligned := reindex_like result self false in
   let* _ := _update_inplace self aligned false in
   ret self)%py.

Definition _wrap_inplace_method (method : method_t) : method_t :=
  let name := PyStr.strip "__" (__name__ method) in
  {| __name__ := "__i" ++ name ++ "__";
     __call__ := f method |}.

(** *** [add_special_arithmetic_methods] *)

(** The keyword arguments of a [dict(...)] call are evaluated from left
    to right; the first one that raises ends the call. *)
Fixpoint kwargs {V : Type} (kw : list (string * result V))
  : result (list (string * V)) :=
  match kw with
  | [] => inr []
  | (k, c) :: kw' =>
      (let! v := c in
       let! rest := kwargs kw' in
       inr ((k, v) :: rest))%result
  end.

(** [_wrap_inplace_method(cls.name)] *)
Definition wrap_attr (cls : class_t) (name : string) : result method_t :=
  (let! method := getattr cls name in
   inr (_wrap_inplace_method method))%result.

(** The table as it stands when [_add_methods] is reached. *)
Definition special_new_methods (cls : class_t) : result (Dict.t method_t) :=
  let new_methods := Dict.empty in
  (let! kw :=
     kwargs
       [ ("__iadd__", wrap_attr cls "__add__");
         ("__isub__", wrap_attr cls "__sub__");
         ("__imul__", wrap_attr cls "__mul__");
         ("__itruediv__", wrap_attr cls "__truediv__");
         ("__ifloordiv__", wrap_attr cls "__floordiv__");
         ("__imod__", wrap_attr cls "__mod__");
         ("__ipow__", wrap_attr cls "__pow__") ] in
   let new_methods := Dict.update new_methods (Dict.of_kwargs kw) in
   let! kw :=
     kwargs
       [ ("__iand__", wrap_attr cls "__and__");
         ("__ior__", wrap_attr cls "__or__");
         ("__ixor__", wrap_attr cls "__xor__") ] in
   let new_methods := Dict.update new_methods (Dict.of_kwargs kw) in
   inr new_methods)%result.

Definition add_special_arithmetic_methods (cls : class_t) : result class_t :=
  (let! new_methods := special_new_methods cls in
   inr (_add_methods cls new_methods))%result.

End Methods.

Arguments kwargs {V} kw.

(** ** The operation registry, as the specification lists it *)

(** The seven arithmetic operations: name, canonical and reflected primitive. *)
Definition arithmetic_ops : list (string * primitive * primitive) :=
  [ ("add", operator_add, radd);
    ("sub", operator_sub, rsub);
    ("mul", operator_mul, rmul);
    ("truediv", operator_truediv, rtruediv);
    ("floordiv", operator_floordiv, rfloordiv);
    ("mod", operator_mod, rmod);
    ("pow", operator_pow, rpow) ].

(** The six comparison operations. *)
Definition comparison_ops : list (string * primitive) :=
  [ ("eq", operator_eq); ("ne", operator_ne); ("lt", operator_lt);
    ("gt", operator_gt); ("le", operator_le); ("ge", operator_ge) ].

(** The operations that have an in-place form. *)
Definition inplace_subset : list string :=
  [ "add"; "sub"; "mul"; "truediv"; "floordiv"; "mod"; "pow";
    "and"; "or"; "xor" ].

(** The special name of an operation: [add] is [__add__]. *)
Definition dunder (name : string) : string := "__" ++ name ++ "__".

(** The naming transform in the words of the specification: an ["i"] goes
    right after the leading marker ["__"], or in front when there is none. *)
Definition insert_i (name : string) : string :=
  if PyStr.startswith "__" name then "__i" ++ PyStr.drop_chars 2 name
  else "i" ++ name.

(** The table of [_create_methods] written out, entry by entry in the
    order of insertion, for wrappers [arith] and [comp]. *)
Definition created_table {Mgr Operand : Type} (have_divmod : bool)
    (arith comp : primitive -> function Mgr Operand)
  : Dict.t (function Mgr Operand) :=
  [ ("add", arith operator_add); ("radd", arith radd);
    ("sub", arith operator_sub); ("mul", arith operator_mul);
    ("truediv", arith operator_truediv);
    ("floordiv", arith operator_floordiv);
    ("mod", arith operator_mod); ("pow", arith operator_pow);
    ("rmul", arith rmul); ("rsub", arith rsub);
    ("rtruediv", arith rtruediv); ("rfloordiv", arith rfloordiv);
    ("rpow", arith rpow); ("rmod", arith rmod);
    ("div", arith operator_truediv); ("rdiv", arith rtruediv) ]
  ++ (if have_divmod
      then [ ("divmod", arith divmod); ("rdivmod", arith rdivmod) ]
      else [])
  ++ [ ("eq", comp operator_eq); ("ne", comp operator_ne);
       ("lt", comp operator_lt); ("gt", comp operator_gt);
       ("le", comp operator_le); ("ge", comp operator_ge) ].

(** The table of [add_flex_arithmetic_methods] written out: the former
    and the three aliases added after it. *)
Definition flex_table {Mgr Operand : Type} (have_divmod : bool)
    (arith comp : primitive -> function Mgr Operand)
  : Dict.t (function Mgr Operand) :=
  created_table have_divmod arith comp
  ++ [ ("multiply", arith operator_mul);
       ("subtract", arith operator_sub);
       ("divide", arith operator_truediv) ].

(** The alias set: alternate public name and canonical name. *)
Definition alias_set : list (string * string) :=
  [ ("multiply", "mul"); ("subtract", "sub"); ("divide", "truediv");
    ("div", "truediv"); ("rdiv", "rtruediv") ].

(** [tbl[name](self, other)] run on the store [h]. *)
Definition call_method {Mgr Operand : Type}
    (tbl : Dict.t (function Mgr Operand)) (name : string)
    (self : loc) (other : Operand) (h : gmap loc (NDFrame Mgr))
  : result (outcome (gmap loc (NDFrame Mgr)) loc) :=
  (let! method := subscript tbl name in
   inr (__call__ method self other h))%result.

(** The in-place law in the words of the specification: the non-mutating
    form is applied to the receiver as it was, its result is realigned to
    the receiver as it was, and the realigned storage is assigned back. *)
Definition compute_realign_commit {Mgr Operand : Type} {engine : Engine Mgr}
    (method : function Mgr Operand) (self : loc) (other : Operand)
  : M (gmap loc (NDFrame Mgr)) loc :=
  fun h =>
    match h !! self with
    | None => Raise ReferenceError h
    | Some x_before =>
        match __call__ method self other h with
        | Raise e h1 => Raise e h1
        | Ok r h1 =>
            match h1 !! r with
            | None => Raise ReferenceError h1
            | Some res =>
                match realign false (_mgr res) (_mgr x_before) with
                | inl e => Raise e h1
                | inr d =>
                    let x_after :=
                      {| _mgr := d; _cacher := _cacher x_before |} in
                    Ok self (<[self := x_after]> h1)
                end
            end
        end
    end.

(** What a caller sees of a call on the receiver [x]: the reference
    returned or the exception raised, and the value [x] then holds. *)
Definition receiver_view {Mgr : Type} (x : loc)
    (out : outcome (gmap loc (NDFrame Mgr)) loc) : result loc * option Mgr :=
  match out with
  | Ok v hf => (inr v, _mgr <$> hf !! x)
  | Raise e hf => (inl e, _mgr <$> hf !! x)
  end.


(** The supported container kinds. *)
Definition supported {Mgr Operand : Type} (cls : class Mgr Operand) : bool :=
  issubclass_ABCSeries cls || issubclass_ABCDataFrame cls.

(** ** A small instance: containers of integers

    Rows are pairs of a label and a value, a missing value being [None];
    alignment is by label.  The instance serves to run the definitions. *)

Module Sample.

Local Open Scope Z_scope.

Definition Mgr : Type := list (Z * option Z).

Inductive Operand : Type :=
| Scalar (z : Z)
| Container (l : loc)
| Text (s : string).

Definition labels (m : Mgr) : list Z := map fst m.

Fixpoint at_label (l : Z) (m : Mgr) : option Z :=
  match m with
  | [] => None
  | (l', v) :: m' => if Z.eqb l l' then v else at_label l m'
  end.

Fixpoint has_duplicates (ls : list Z) : bool :=
  match ls with
  | [] => false
  | l :: ls' => existsb (Z.eqb l) ls' || has_duplicates ls'
  end.

Fixpoint same_labels (a b : list Z) : bool :=
  match a, b with
  | [], [] => true
  | x :: a', y :: b' => Z.eqb x y && same_labels a' b'
  | _, _ => false
  end.

Definition same_index (m target : Mgr) : bool :=
  same_labels (labels m) (labels target).

(** Reindexing a manager with duplicate labels is refused. *)
Definition reindex_by_label (m target : Mgr) : result Mgr :=
  if has_duplicates (labels m) then
    inl (ValueError "cannot reindex on an axis with duplicate labels")
  else inr (map (fun l => (l, at_label l m)) (labels target)).

(** The check that a view may be written to; here it always refuses. *)
Definition refuse_setitem_copy (self : loc)
  : M (gmap loc (NDFrame Mgr)) unit :=
  raise (ValueError "SettingWithCopy").

#[global] Instance engine : Engine Mgr :=
  {| reindex := reindex_by_label;
     same_axes := same_index;
     _check_setitem_copy := refuse_setitem_copy |}.

Definition lift2 (op : Z -> Z -> Z) (a b : option Z) : option Z :=
  match a, b with
  | Some x, Some y => Some (op x y)
  | _, _ => None
  end.

(** The operation on two managers, row by row after an outer alignment. *)
Definition combine (op : Z -> Z -> Z) (m n : Mgr) : Mgr :=
  map (fun lv => (fst lv, lift2 op (snd lv) (at_label (fst lv) n))) m
  ++ map (fun lv => (fst lv, None))
       (filter (fun lv => negb (existsb (Z.eqb (fst lv)) (labels m))) n).

(** A non-mutating binary method: the result is a new container; an
    operand that is text is refused. *)
Definition binop (name : string) (op : Z -> Z -> Z) : function Mgr Operand :=
  {| __name__ := name;
     __call__ := fun self other =>
       (let* o := deref self in
        match other with
        | Scalar z =>
            let rows :=
              map (fun lv => (fst lv, lift2 op (snd lv) (Some z))) (_mgr o) in
            alloc {| _mgr := rows; _cacher := None |}
        | Container l =>
            let* p := deref l in
            alloc {| _mgr := combine op (_mgr o) (_mgr p); _cacher := None |}
        | Text _ => raise (TypeError "unsupported operand type")
        end)%py |}.

(** A method that counts its calls in the store before it raises. *)
Definition counting_failure : function Mgr Operand :=
  {| __name__ := "__add__";
     __call__ := fun self other =>
       (let* _ := alloc {| _mgr := []; _cacher := None |} in
        raise (TypeError "unsupported operand type"))%py |}.

Definition special_methods : Dict.t (function Mgr Operand) :=
  [ ("__add__", binop "__add__" Z.add);
    ("__sub__", binop "__sub__" Z.sub);
    ("__mul__", binop "__mul__" Z.mul);
    ("__truediv__", binop "__truediv__" Z.div);
    ("__floordiv__", binop "__floordiv__" Z.div);
    ("__mod__", binop "__mod__" Z.modulo);
    ("__pow__", binop "__pow__" Z.pow);
    ("__and__", binop "__and__" Z.land);
    ("__or__", binop "__or__" Z.lor);
    ("__xor__", binop "__xor__" Z.lxor) ].

Definition Series : class Mgr Operand :=
  {| _typ := "series"; namespace := special_methods |}.

Definition DataFrame : class Mgr Operand :=
  {| _typ := "dataframe"; namespace := special_methods |}.

Definition Index : class Mgr Operand :=
  {| _typ := "index"; namespace := special_methods |}.

Definition primitive_name (p : primitive) : string :=
  match p with
  | operator_add => "add" | operator_sub => "sub" | operator_mul => "mul"
  | operator_truediv => "truediv" | operator_floordiv => "floordiv"
  | operator_mod => "mod" | operator_pow => "pow"
  | radd => "radd" | rsub => "rsub" | rmul => "rmul"
  | rtruediv => "rtruediv" | rfloordiv => "rfloordiv"
  | rmod => "rmod" | rpow => "rpow"
  | divmod => "divmod" | rdivmod => "rdivmod"
  | operator_eq => "eq" | operator_ne => "ne" | operator_lt => "lt"
  | operator_gt => "gt" | operator_le => "le" | operator_ge => "ge"
  end.

(** Flex methods of the instance: only their names matter here. *)
Definition call_factory (w : wrapper_factory) (p : primitive)
  : function Mgr Operand :=
  {| __name__ := primitive_name p;
     __call__ := fun self other => raise (TypeError "not supported") |}.

Definition series (values : list Z) (start : Z) : Mgr :=
  imap (fun i v => (start + Z.of_nat i, Some v)) values.

(** [x = [1, 2, 3]] at location 1, a cached view of the container at
    location 3, and [y = [1, 1, 1]] at location 2. *)
Definition x : loc := 1%positive.
Definition y : loc := 2%positive.

Definition parent : loc := 3%positive.

Definition h0 : gmap loc (NDFrame Mgr) :=
  <[parent := {| _mgr := series [7; 8; 9] 0; _cacher := None |}]>
    (<[y := {| _mgr := series [1; 1; 1] 0; _cacher := None |}]>
       (<[x := {| _mgr := series [1; 2; 3] 0; _cacher := Some parent |}]> ∅)).

(** A receiver with a duplicated label, again a cached view. *)
Definition h_dup : gmap loc (NDFrame Mgr) :=
  <[y := {| _mgr := series [1; 1] 0; _cacher := None |}]>
    (<[x := {| _mgr := [(0, Some 1); (0, Some 2)];
               _cacher := Some parent |}]> ∅).

Definition iadd : function Mgr Operand :=
  _wrap_inplace_method (binop "__add__" Z.add).

End Sample.

(** More of the instance: a class without subtraction and exclusive or,
    and a small table to pin. *)

Module SampleMore.

Definition without_sub_and_xor : Dict.t (function Sample.Mgr Sample.Operand) :=
  [ ("__add__", Sample.binop "__add__" Z.add);
    ("__mul__", Sample.binop "__mul__" Z.mul);
    ("__truediv__", Sample.binop "__truediv__" Z.div);
    ("__floordiv__", Sample.binop "__floordiv__" Z.div);
    ("__mod__", Sample.binop "__mod__" Z.modulo);
    ("__pow__", Sample.binop "__pow__" Z.pow);
    ("__and__", Sample.binop "__and__" Z.land);
    ("__or__", Sample.binop "__or__" Z.lor) ].

Definition Partial : class Sample.Mgr Sample.Operand :=
  {| _typ := "series"; namespace := without_sub_and_xor |}.

(** A small table, with a name the sample classes have and one they have
    not. *)
Definition two_methods : Dict.t (function Sample.Mgr Sample.Operand) :=
  [ ("__add__", Sample.binop "__add__" Z.sub);
    ("plus", Sample.binop "plus" Z.add) ].

End SampleMore.

Example sample_iadd :
  exists hf,
    __call__ Sample.iadd Sample.x (Sample.Container Sample.y) Sample.h0
      = Ok Sample.x hf
    /\ hf !! Sample.x
       = Some {| _mgr := [(0, Some 2); (1, Some 3); (2, Some 4)]%Z;
                 _cacher := None |}.
Proof. eexists. split; vm_compute; reflexivity. Qed.

(** On a receiver with a duplicated label the addition returns, but its
    result cannot be realigned: the in-place addition raises, the receiver
    has lost its cacher and kept its storage. *)
Example sample_iadd_duplicate_labels :
  (exists r h1,
     __call__ (Sample.binop "__add__" Z.add)
       Sample.x (Sample.Container Sample.y) Sample.h_dup = Ok r h1)
  /\ exists hf,
       __call__ Sample.iadd Sample.x (Sample.Container Sample.y) Sample.h_dup
       = Raise (ValueError "cannot reindex on an axis with duplicate labels")
           hf
       /\ hf !! Sample.x
          = Some {| _mgr := [(0, Some 1); (0, Some 2)]%Z; _cacher := None |}.
Proof.
  split.
  - do 2 eexists. vm_compute. reflexivity.
  - eexists. split; vm_compute; reflexivity.
Qed.

(** ** Properties of dictionaries *)

Section DictProperties.

Context {V : Type}.
Implicit Types (d other : Dict.t V) (k : string) (v : V).

Lemma get_set_eq d k v : Dict.get k (Dict.set k v d) = Some v.
Proof.
  induction d as [| [k0 v0] d IH]; simpl.
  - now rewrite String.eqb_refl.
  - destruct (String.eqb k k0) eqn:E; simpl.
    + now rewrite String.eqb_refl.
    + now rewrite E.
Qed.

Lemma get_set_ne d k k' v :
  k <> k' -> Dict.get k' (Dict.set k v d) = Dict.get k' d.
Proof.
  intros Hne. apply not_eq_sym, String.eqb_neq in Hne.
  induction d as [| [k0 v0] d IH]; simpl.
  - now rewrite Hne.
  - destruct (String.eqb k k0) eqn:E; simpl.
    + apply String.eqb_eq in E. subst k0. now rewrite Hne.
    + now rewrite IH.
Qed.

Lemma contains_set_ne d k k' v :
  k <> k' -> Dict.contains k' (Dict.set k v d) = Dict.contains k' d.
Proof. intros Hne. unfold Dict.contains. now rewrite get_set_ne. Qed.



(** A key that is not in a dictionary has no value there. *)
Lemma get_not_in d k : ~ In k (Dict.keys d) -> Dict.get k d = None.
Proof.
  induction d as [| [k0 v0] d IH]; simpl; [reflexivity |].
  intros Hnotin. destruct (String.eqb k k0) eqn:E.
  - apply String.eqb_eq in E. subst k0. exfalso. apply Hnotin. now left.
  - apply IH. intros Hin. apply Hnotin. now right.
Qed.

(** [update] assigns item after item: what a key holds afterwards is what
    the items give it, or else what it held before. *)
Lemma get_update d other k :
  List.NoDup (Dict.keys other) ->
  Dict.get k (Dict.update d other)
  = match Dict.get k other with
    | Some v => Some v
    | None => Dict.get k d
    end.
Proof.
  unfold Dict.update. revert d.
  induction other as [| [k0 v0] other IH]; simpl; intros d Hnd;
    [reflexivity |].
  apply List.NoDup_cons_iff in Hnd. destruct Hnd as [Hnotin Hnd].
  rewrite (IH _ Hnd). destruct (String.eqb k k0) eqn:E.
  - apply String.eqb_eq in E. subst k0.
    rewrite (get_not_in other k Hnotin). apply get_set_eq.
  - destruct (Dict.get k other); [reflexivity |].
    apply get_set_ne. intros ->. now rewrite String.eqb_refl in E.
Qed.

End DictProperties.

(** ** Properties of the registry lookup and of the flex method table *)

(** Every item of a list written out: the first by [tac], then the rest. *)
Ltac each_item tac :=
  repeat (apply List.Forall_cons; [tac |]); apply List.Forall_nil.

Section TableProperties.

Context {Mgr Operand : Type}.
Variable call_factory : wrapper_factory -> primitive -> function Mgr Operand.

Implicit Types (cls : class Mgr Operand) (tbl : Dict.t (function Mgr Operand)).
Implicit Types (arith comp : primitive -> function Mgr Operand).

(** The two kinds carry different tags: no type is of both. *)
Lemma kinds_exclusive cls :
  issubclass_ABCSeries cls = true -> issubclass_ABCDataFrame cls = false.
Proof.
  unfold issubclass_ABCSeries, issubclass_ABCDataFrame.
  intros H. apply String.eqb_eq in H. rewrite H. reflexivity.
Qed.

Lemma supported_cases cls :
  supported cls = true ->
  (issubclass_ABCSeries cls = true /\ issubclass_ABCDataFrame cls = false)
  \/ (issubclass_ABCSeries cls = false /\ issubclass_ABCDataFrame cls = true).
Proof.
  unfold supported. intros H.
  destruct (issubclass_ABCSeries cls) eqn:Es.
  - left. split; [reflexivity | now apply kinds_exclusive].
  - right. split; [reflexivity | exact H].
Qed.

(** *** The lookup of the wrappers *)

Lemma _get_method_wrappers_series cls :
  issubclass_ABCSeries cls = true ->
  _get_method_wrappers cls = inr (flex_method_SERIES, flex_method_SERIES).
Proof. intros Hs. unfold _get_method_wrappers. now rewrite Hs. Qed.

Lemma _get_method_wrappers_frame cls :
  issubclass_ABCDataFrame cls = true ->
  _get_method_wrappers cls
  = inr (flex_arith_method_FRAME, flex_comp_method_FRAME).
Proof.
  intros Hd. unfold _get_method_wrappers.
  destruct (issubclass_ABCSeries cls) eqn:Hs.
  - apply kinds_exclusive in Hs. congruence.
  - now rewrite Hd.
Qed.

Lemma _get_method_wrappers_other cls :
  issubclass_ABCSeries cls = false ->
  issubclass_ABCDataFrame cls = false ->
  _get_method_wrappers cls = inl (UnboundLocalError "arith_flex").
Proof. intros Hs Hd. unfold _get_method_wrappers. now rewrite Hs, Hd. Qed.

(** C8: the lookup of the wrappers by container type.  A type that is
    neither a 1-D nor a 2-D labeled container gets no pair of factories:
    the lookup raises (the locals were never bound).  A 1-D type gets the
    one factory [flex_method_SERIES] in both positions, a 2-D type the two
    distinct factories [flex_arith_method_FRAME] and
    [flex_comp_method_FRAME]. *)
Theorem get_method_wrappers_by_kind cls :
  (issubclass_ABCSeries cls = false ->
   issubclass_ABCDataFrame cls = false ->
   _get_method_wrappers cls = inl (UnboundLocalError "arith_flex")
   /\ forall pair, _get_method_wrappers cls <> inr pair)
  /\ (issubclass_ABCSeries cls = true ->
      _get_method_wrappers cls = inr (flex_method_SERIES, flex_method_SERIES))
  /\ (issubclass_ABCDataFrame cls = true ->
      exists wa wc,
        _get_method_wrappers cls = inr (wa, wc)
        /\ wa = flex_arith_method_FRAME
        /\ wc = flex_comp_method_FRAME
        /\ wa <> wc).
Proof.
  split; [| split].
  - intros Hs Hd. rewrite (_get_method_wrappers_other cls Hs Hd).
    split; [reflexivity | discriminate].
  - apply _get_method_wrappers_series.
  - intros Hd. exists flex_arith_method_FRAME, flex_comp_method_FRAME.
    split; [now apply _get_method_wrappers_frame |].
    repeat split; discriminate.
Qed.

(** *** The tables, built and written out *)

(** The builder returns, for every class and every pair of wrappers: none
    of its subscripts can miss, and stripping the underscores changes no
    key.  What it returns is the table written out. *)
Lemma _create_methods_table cls arith comp :
  _create_methods cls arith comp
  = inr (created_table (issubclass_ABCSeries cls) arith comp).
Proof.
  unfold _create_methods.
  destruct (issubclass_ABCSeries cls); vm_compute; reflexivity.
Qed.

(** So does [add_flex_arithmetic_methods] up to the pinning, once the
    lookup of the wrappers has succeeded: the aliases are appended and the
    assertion passes. *)
Lemma flex_new_methods_table cls (wa wc : wrapper_factory) :
  _get_method_wrappers cls = inr (wa, wc) ->
  flex_new_methods call_factory cls
  = inr (flex_table (issubclass_ABCSeries cls)
           (call_factory wa) (call_factory wc)).
Proof.
  intros Hw. unfold flex_new_methods.
  rewrite Hw. cbn [rbind fst snd]. rewrite _create_methods_table.
  destruct (issubclass_ABCSeries cls); vm_compute; reflexivity.
Qed.

Lemma flex_new_methods_series cls :
  issubclass_ABCSeries cls = true ->
  flex_new_methods call_factory cls
  = inr (flex_table true (call_factory flex_method_SERIES)
           (call_factory flex_method_SERIES)).
Proof.
  intros Hs.
  rewrite (flex_new_methods_table cls _ _ (_get_method_wrappers_series cls Hs)).
  now rewrite Hs.
Qed.

Lemma flex_new_methods_frame cls :
  issubclass_ABCDataFrame cls = true ->
  flex_new_methods call_factory cls
  = inr (flex_table false (call_factory flex_arith_method_FRAME)
           (call_factory flex_comp_method_FRAME)).
Proof.
  intros Hd.
  rewrite (flex_new_methods_table cls _ _ (_get_method_wrappers_frame cls Hd)).
  destruct (issubclass_ABCSeries cls) eqn:Hs; [| reflexivity].
  apply kinds_exclusive in Hs. congruence.
Qed.

(** On a supported container type the build of the table succeeds. *)
Lemma flex_new_methods_supported cls :
  supported cls = true ->
  exists wa wc,
    _get_method_wrappers cls = inr (wa, wc)
    /\ flex_new_methods call_factory cls
       = inr (flex_table (issubclass_ABCSeries cls)
                (call_factory wa) (call_factory wc)).
Proof.
  intros Hsup.
  destruct (supported_cases cls Hsup) as [[Hs Hd] | [Hs Hd]].
  - pose proof (_get_method_wrappers_series cls Hs) as Hw.
    do 2 eexists. split; [exact Hw | now apply flex_new_methods_table].
  - pose proof (_get_method_wrappers_frame cls Hd) as Hw.
    do 2 eexists. split; [exact Hw | now apply flex_new_methods_table].
Qed.

(** Without wrappers there is no table. *)
Lemma flex_new_methods_other cls :
  supported cls = false ->
  flex_new_methods call_factory cls = inl (UnboundLocalError "arith_flex").
Proof.
  unfold supported. intros H. apply orb_false_iff in H. destruct H as [Hs Hd].
  unfold flex_new_methods.
  now rewrite (_get_method_wrappers_other cls Hs Hd).
Qed.

(** The keys of the written table are unique. *)
Lemma flex_table_nodup have_divmod arith comp :
  List.NoDup (Dict.keys (flex_table have_divmod arith comp)).
Proof.
  apply NoDup_ListNoDup, (bool_decide_unpack _).
  destruct have_divmod; vm_compute; reflexivity.
Qed.

(** *** [divmod] *)

Lemma created_table_divmod have_divmod arith comp :
  Dict.get "divmod" (created_table have_divmod arith comp)
  = (if have_divmod then Some (arith divmod) else None)
  /\ Dict.get "rdivmod" (created_table have_divmod arith comp)
     = (if have_divmod then Some (arith rdivmod) else None).
Proof. destruct have_divmod; split; reflexivity. Qed.

Lemma flex_table_divmod have_divmod arith comp :
  Dict.get "divmod" (flex_table have_divmod arith comp)
  = (if have_divmod then Some (arith divmod) else None)
  /\ Dict.get "rdivmod" (flex_table have_divmod arith comp)
     = (if have_divmod then Some (arith rdivmod) else None).
Proof. destruct have_divmod; split; reflexivity. Qed.

(** C4: in the flex method table of a supported container type the names
    [divmod] and [rdivmod] are present exactly when the type is a 1-D
    labeled container, and then hold the wrapped [divmod] and [rdivmod];
    for a 2-D type neither is present. *)
Theorem divmod_iff_series cls :
  supported cls = true ->
  exists tbl,
    flex_new_methods call_factory cls = inr tbl
    /\ (Dict.contains "divmod" tbl = true <-> issubclass_ABCSeries cls = true)
    /\ (Dict.contains "rdivmod" tbl = true <-> issubclass_ABCSeries cls = true)
    /\ (issubclass_ABCSeries cls = true ->
        Dict.get "divmod" tbl = Some (call_factory flex_method_SERIES divmod)
        /\ Dict.get "rdivmod" tbl
           = Some (call_factory flex_method_SERIES rdivmod))
    /\ (issubclass_ABCDataFrame cls = true ->
        Dict.get "divmod" tbl = None /\ Dict.get "rdivmod" tbl = None).
Proof.
  intros Hsup.
  destruct (supported_cases cls Hsup) as [[Hs Hd] | [Hs Hd]].
  - rewrite (flex_new_methods_series cls Hs), Hs, Hd. eexists.
    split; [reflexivity |].
    destruct (flex_table_divmod true (call_factory flex_method_SERIES)
                (call_factory flex_method_SERIES)) as [Hdm Hrdm].
    unfold Dict.contains. rewrite Hdm, Hrdm.
    repeat split; try reflexivity; discriminate.
  - rewrite (flex_new_methods_frame cls Hd), Hs, Hd. eexists.
    split; [reflexivity |].
    destruct (flex_table_divmod false (call_factory flex_arith_method_FRAME)
                (call_factory flex_comp_method_FRAME)) as [Hdm Hrdm].
    unfold Dict.contains. rewrite Hdm, Hrdm.
    repeat split; try reflexivity; discriminate.
Qed.

(** *** The entries for the registry *)

(** Every arithmetic operation has its entry and its reflected entry,
    every comparison its entry only. *)
Lemma flex_table_registry have_divmod arith comp :
  Forall (fun d =>
            Dict.get (fst (fst d)) (flex_table have_divmod arith comp)
            = Some (arith (snd (fst d)))
            /\ Dict.get ("r" ++ fst (fst d)) (flex_table have_divmod arith comp)
               = Some (arith (snd d)))
         arithmetic_ops
  /\ Forall (fun d =>
               Dict.get (fst d) (flex_table have_divmod arith comp)
               = Some (comp (snd d))
               /\ Dict.get ("r" ++ fst d) (flex_table have_divmod arith comp)
                  = None)
            comparison_ops.
Proof.
  destruct have_divmod; split; each_item ltac:(split; reflexivity).
Qed.

(** C5: in the flex method table of a supported container type each of the
    seven arithmetic operations has its canonical entry, made by the
    arithmetic wrapper from the canonical primitive, and its reflected
    entry [r<name>], made from the reflected primitive; each of the six
    comparisons has its canonical entry, made by the comparison wrapper,
    and no entry [r<name>]. *)
Theorem registry_entries cls :
  supported cls = true ->
  exists wa wc tbl,
    _get_method_wrappers cls = inr (wa, wc)
    /\ flex_new_methods call_factory cls = inr tbl
    /\ Forall (fun d =>
                 Dict.get (fst (fst d)) tbl
                 = Some (call_factory wa (snd (fst d)))
                 /\ Dict.get ("r" ++ fst (fst d)) tbl
                    = Some (call_factory wa (snd d)))
              arithmetic_ops
    /\ Forall (fun d =>
                 Dict.get (fst d) tbl = Some (call_factory wc (snd d))
                 /\ Dict.get ("r" ++ fst d) tbl = None)
              comparison_ops.
Proof.
  intros Hsup.
  destruct (supported_cases cls Hsup) as [[Hs Hd] | [Hs Hd]].
  - exists flex_method_SERIES, flex_method_SERIES. eexists.
    split; [now apply _get_method_wrappers_series |].
    split; [now apply flex_new_methods_series |].
    apply flex_table_registry.
  - exists flex_arith_method_FRAME, flex_comp_method_FRAME. eexists.
    split; [now apply _get_method_wrappers_frame |].
    split; [now apply flex_new_methods_frame |].
    apply flex_table_registry.
Qed.

(** *** The aliases *)

(** An alias and its canonical name hold one and the same method. *)
Lemma flex_table_aliases have_divmod arith comp :
  Forall (fun d =>
            exists method,
              Dict.get (fst d) (flex_table have_divmod arith comp)
              = Some method
              /\ Dict.get (snd d) (flex_table have_divmod arith comp)
                 = Some method)
         alias_set.
Proof.
  destruct have_divmod; each_item ltac:(eexists; split; reflexivity).
Qed.

(** Two names that hold the same method are called alike. *)
Lemma call_method_same tbl name name' method a b h :
  Dict.get name tbl = Some method ->
  Dict.get name' tbl = Some method ->
  call_method tbl name a b h = call_method tbl name' a b h.
Proof.
  intros H H'. unfold call_method, subscript. now rewrite H, H'.
Qed.

(** C6: in the flex method table of a supported container type every
    alias holds the very method of its canonical name, so that calling
    the one or the other on any receiver, operand and store is the same:
    [multiply] is [mul], [subtract] is [sub], [divide] and [div] are
    [truediv], [rdiv] is [rtruediv]. *)
Theorem aliases_exact cls :
  supported cls = true ->
  exists tbl,
    flex_new_methods call_factory cls = inr tbl
    /\ Forall (fun d =>
                 (exists method,
                    Dict.get (fst d) tbl = Some method
                    /\ Dict.get (snd d) tbl = Some method)
                 /\ forall a b h,
                      call_method tbl (fst d) a b h
                      = call_method tbl (snd d) a b h)
              alias_set.
Proof.
  intros Hsup.
  destruct (flex_new_methods_supported cls Hsup) as (wa & wc & _ & Htbl).
  eexists. split; [exact Htbl |].
  generalize (flex_table_aliases (issubclass_ABCSeries cls)
                (call_factory wa) (call_factory wc)).
  apply List.Forall_impl.
  intros [alias name] (method & Halias & Hname). cbn [fst snd] in *.
  split; [now exists method |].
  intros a b h. now apply (call_method_same _ _ _ method).
Qed.

(** *** The assertion *)

(** The assertion is about three fixed names: whatever else a table
    holds, it passes exactly when none of them is a key. *)
Lemma opt_out_check_spec tbl :
  opt_out_check tbl = true
  <-> Dict.contains "ror_" tbl = false
      /\ Dict.contains "rxor" tbl = false
      /\ Dict.contains "rand_" tbl = false.
Proof.
  unfold opt_out_check, opt_out_names. simpl.
  destruct (Dict.contains "ror_" tbl), (Dict.contains "rxor" tbl),
    (Dict.contains "rand_" tbl); simpl; intuition congruence.
Qed.



(** *** Pinning a table onto a class *)

Lemma _add_methods_typ cls tbl : _typ (_add_methods cls tbl) = _typ cls.
Proof.
  unfold _add_methods. revert cls.
  induction tbl as [| [k v] tbl IH]; simpl; intros cls; [reflexivity |].
  now rewrite IH.
Qed.

Lemma _add_methods_namespace cls tbl :
  namespace (_add_methods cls tbl) = Dict.update (namespace cls) tbl.
Proof.
  unfold _add_methods, Dict.update. revert cls.
  induction tbl as [| [k v] tbl IH]; simpl; intros cls; [reflexivity |].
  now rewrite IH.
Qed.

(** After the pinning the class answers every name of the table with the
    entry of the table, and every other name as before. *)
Lemma _add_methods_getattr cls tbl k :
  List.NoDup (Dict.keys tbl) ->
  getattr (_add_methods cls tbl) k
  = match Dict.get k tbl with
    | Some v => inr v
    | None => getattr cls k
    end.
Proof.
  intros Hnd. unfold getattr.
  rewrite _add_methods_namespace, (get_update _ _ _ Hnd).
  destruct (Dict.get k tbl); reflexivity.
Qed.

(** The flex methods reach the class: [add_flex_arithmetic_methods]
    succeeds on a supported container type, keeps its kind and pins every
    entry of the table. *)
Lemma add_flex_arithmetic_methods_pins cls :
  supported cls = true ->
  exists tbl cls',
    flex_new_methods call_factory cls = inr tbl
    /\ add_flex_arithmetic_methods call_factory cls = inr cls'
    /\ _typ cls' = _typ cls
    /\ forall k,
         getattr cls' k
         = match Dict.get k tbl with
           | Some v => inr v
           | None => getattr cls k
           end.
Proof.
  intros Hsup. unfold add_flex_arithmetic_methods.
  destruct (flex_new_methods_supported cls Hsup) as (wa & wc & _ & Htbl).
  rewrite Htbl. do 2 eexists. split; [reflexivity |].
  split; [reflexivity |]. split; [apply _add_methods_typ |].
  intros k. apply _add_methods_getattr, flex_table_nodup.
Qed.

(** On any other type the build stops before anything is pinned. *)
Lemma add_flex_arithmetic_methods_other cls :
  supported cls = false ->
  add_flex_arithmetic_methods call_factory cls
  = inl (UnboundLocalError "arith_flex").
Proof.
  intros H. unfold add_flex_arithmetic_methods.
  now rewrite (flex_new_methods_other cls H).
Qed.



End TableProperties.

(** ** Properties of the in-place wrapper *)

Section InPlaceProperties.

Context {Mgr Operand : Type} {engine : Engine Mgr}.

Implicit Types (method : function Mgr Operand) (self r : loc)
  (other : Operand) (h : gmap loc (NDFrame Mgr)) (o : NDFrame Mgr).


(** A location given out by [alloc] is new. *)
Lemma fresh_lookup h : h !! fresh (dom h) = None.
Proof. apply not_elem_of_dom, is_fresh. Qed.

Lemma fresh_ne h l o : h !! l = Some o -> l <> fresh (dom h).
Proof. intros H ->. rewrite fresh_lookup in H. discriminate. Qed.

(** When the wrapped method raises, the wrapper raises the same
    exception on the same store: nothing of its own has run. *)
Lemma f_raise method self other h e h1 :
  __call__ method self other h = Raise e h1 ->
  f method self other h = Raise e h1.
Proof. intros H. unfold f, bind. rewrite H. reflexivity. Qed.

(** The store after [_reset_cacher]. *)
Lemma _reset_cacher_ok self h o :
  h !! self = Some o ->
  _reset_cacher self h
  = Ok tt (<[self := {| _mgr := _mgr o; _cacher := None |}]> h).
Proof.
  intros H. unfold _reset_cacher, bind, deref, store. now rewrite H.
Qed.

(** When the wrapped method returns, the wrapper runs to the realignment:
    if that succeeds the receiver is returned and holds the realigned
    storage, every other container that existed is as the method left it;
    if it raises, the receiver has lost its cacher and kept its storage. *)
Lemma f_after_method method self other h r h1 o ro :
  __call__ method self other h = Ok r h1 ->
  h1 !! self = Some o ->
  h1 !! r = Some ro ->
  match realign false (_mgr ro) (_mgr o) with
  | inr d =>
      exists hf,
        f method self other h = Ok self hf
        /\ hf !! self = Some {| _mgr := d; _cacher := None |}
        /\ forall l, l <> self -> is_Some (h1 !! l) -> hf !! l = h1 !! l
  | inl e =>
      f method self other h
      = Raise e (<[self := {| _mgr := _mgr o; _cacher := None |}]> h1)
  end.
Proof.
  intros Hcall Hself Hr.
  set (o0 := {| _mgr := _mgr o; _cacher := None |}).
  set (h2 := <[self := o0]> h1).
  assert (Hr2 : exists ro2, h2 !! r = Some ro2 /\ _mgr ro2 = _mgr ro).
  { unfold h2. destruct (decide (r = self)) as [-> | Hne].
    - rewrite lookup_insert_eq. exists o0. split; [reflexivity |].
      rewrite Hself in Hr. injection Hr as <-. reflexivity.
    - rewrite lookup_insert_ne by congruence. eauto. }
  destruct Hr2 as (ro2 & Hr2 & Hmgr).
  assert (Hself2 : h2 !! self = Some o0) by apply lookup_insert_eq.
  unfold f, bind. rewrite Hcall, (_reset_cacher_ok self h1 o Hself).
  fold o0. fold h2.
  unfold reindex_like, realign, bind, deref. rewrite Hr2, Hself2, Hmgr.
  simpl (_mgr o0).
  destruct (negb false && same_axes (_mgr ro) (_mgr o)) eqn:Hsame.
  - unfold ret, _update_inplace, bind, deref, store. rewrite Hself2, Hr2.
    eexists. split; [reflexivity |]. rewrite Hmgr. split.
    + apply lookup_insert_eq.
    + intros l Hl _. unfold h2. rewrite !lookup_insert_ne by congruence.
      reflexivity.
  - unfold lift.
    destruct (reindex (_mgr ro) (_mgr o)) as [e | d]; [reflexivity |].
    unfold alloc, _update_inplace, bind, deref, store, ret.
    set (l := fresh (dom h2)).
    assert (Hl : self <> l) by (apply (fresh_ne h2 self o0 Hself2)).
    rewrite lookup_insert_ne by congruence. rewrite Hself2, lookup_insert_eq.
    eexists. split; [reflexivity |]. simpl. split.
    + apply lookup_insert_eq.
    + intros l' Hl' [o' Ho'].
      assert (h2 !! l' = Some o') as Ho2
          by (unfold h2; rewrite lookup_insert_ne by congruence; exact Ho').
      rewrite lookup_insert_ne by congruence.
      rewrite lookup_insert_ne by (apply not_eq_sym, (fresh_ne h2 l' o' Ho2)).
      unfold h2. rewrite lookup_insert_ne by congruence. reflexivity.
Qed.

(** C9: an exception raised by the wrapped method leaves the in-place
    method as it was raised, with the store as the method left it after
    its one call: the wrapper catches nothing and calls nothing again. *)
Theorem inplace_propagates_error method self other h e h1 :
  __call__ method self other h = Raise e h1 ->
  __call__ (_wrap_inplace_method method) self other h = Raise e h1.
Proof. intros H. simpl. apply f_raise, H. Qed.

(** C10: when the wrapped method raises, the wrapper has touched nothing:
    the receiver is in the state in which the method left it, and if the
    method did not change it, its cacher and its storage are those it had
    before the call. *)
Theorem inplace_failure_leaves_receiver method self other h e h1 :
  __call__ method self other h = Raise e h1 ->
  exists hf,
    __call__ (_wrap_inplace_method method) self other h = Raise e hf
    /\ hf !! self = h1 !! self
    /\ (h1 !! self = h !! self ->
        _cacher <$> hf !! self = _cacher <$> h !! self
        /\ _mgr <$> hf !! self = _mgr <$> h !! self).
Proof.
  intros H. exists h1. split; [simpl; apply f_raise, H |].
  split; [reflexivity |]. intros ->. split; reflexivity.
Qed.

(** C2, amended: when the wrapped method returns and the realignment of
    its result to the receiver succeeds, the in-place method returns, and
    what it returns is the receiver itself: a container that existed before
    the call, not the container the method produced nor one made on the
    way. *)
Theorem inplace_returns_receiver method self other h r h1 o0 o ro d :
  h !! self = Some o0 ->
  __call__ method self other h = Ok r h1 ->
  h1 !! self = Some o ->
  h1 !! r = Some ro ->
  realign false (_mgr ro) (_mgr o) = inr d ->
  (exists hf, __call__ (_wrap_inplace_method method) self other h = Ok self hf)
  /\ forall v hf,
       __call__ (_wrap_inplace_method method) self other h = Ok v hf ->
       v = self /\ is_Some (h !! v) /\ (r <> self -> v <> r).
Proof.
  intros Hbefore Hcall Hself Hr Hrealign.
  pose proof (f_after_method method self other h r h1 o ro Hcall Hself Hr)
    as Hf.
  rewrite Hrealign in Hf. destruct Hf as (hf & Hf & _).
  simpl. split; [eauto |].
  intros v hf' Hv. rewrite Hf in Hv. injection Hv as <- _.
  split; [reflexivity |]. split; [eauto | congruence].
Qed.

(** The law of the wrapper.  For a method that returns and has left the
    receiver as it was, a caller sees the same of the wrapper as of
    computing with the method, realigning the result to the receiver as it
    was and assigning it back: the receiver is returned and holds the
    realigned result, or the realignment raises, in both. *)
Lemma wrapper_law method self other h r h1 o ro :
  __call__ method self other h = Ok r h1 ->
  h !! self = Some o ->
  h1 !! self = Some o ->
  h1 !! r = Some ro ->
  receiver_view self (__call__ (_wrap_inplace_method method) self other h)
  = receiver_view self (compute_realign_commit method self other h)
  /\ receiver_view self (__call__ (_wrap_inplace_method method) self other h)
     = match realign false (_mgr ro) (_mgr o) with
       | inr d => (inr self, Some d)
       | inl e => (inl e, Some (_mgr o))
       end.
Proof.
  intros Hcall Hbefore Hself Hr.
  pose proof (f_after_method method self other h r h1 o ro Hcall Hself Hr)
    as Hf.
  unfold compute_realign_commit. rewrite Hbefore, Hcall, Hr. simpl.
  destruct (realign false (_mgr ro) (_mgr o)) as [e | d].
  - rewrite Hf. simpl. rewrite lookup_insert_eq, Hself. split; reflexivity.
  - destruct Hf as (hf & -> & Hval & _). simpl.
    rewrite Hval, lookup_insert_eq. split; reflexivity.
Qed.

(** The name the wrapper gives to its product, against the naming
    transform of the specification: on a special name they agree. *)
Lemma _wrap_inplace_method_name method name :
  In name inplace_subset ->
  __name__ method = dunder name ->
  __name__ (_wrap_inplace_method method) = insert_i (dunder name).
Proof.
  intros Hin Hname. simpl. rewrite Hname.
  simpl in Hin.
  repeat (destruct Hin as [<- | Hin]; [reflexivity |]). destruct Hin.
Qed.

(** What a table of in-place methods is made of, when the build of it
    succeeds: one entry for each operation of the subset, in order, the
    wrapper of the method the class has under the special name. *)
Lemma special_new_methods_entries (cls : class Mgr Operand) tbl :
  special_new_methods cls = inr tbl ->
  Dict.keys tbl = map (fun name => insert_i (dunder name)) inplace_subset
  /\ Forall (fun name =>
               exists method,
                 getattr cls (dunder name) = inr method
                 /\ Dict.get (insert_i (dunder name)) tbl
                    = Some (_wrap_inplace_method method))
            inplace_subset.
Proof.
  unfold special_new_methods, wrap_attr, getattr, inplace_subset.
  cbv [dunder append]. simpl kwargs.
  repeat match goal with
         | |- context [Dict.get ?k (namespace cls)] =>
             let E := fresh "E" in
             destruct (Dict.get k (namespace cls)) eqn:E;
             simpl; [| discriminate]
         end.
  intros Htbl. injection Htbl as <-. split; [reflexivity |].
  repeat (apply List.Forall_cons;
          [eexists; split;
           [cbv [append];
            match goal with
            | H : Dict.get ?k _ = Some _ |- context [Dict.get ?k _] =>
                rewrite H
            end; reflexivity
           | reflexivity] |]).
  apply List.Forall_nil.
Qed.

(** The build of the table succeeds as soon as the class has the ten
    special methods. *)
Lemma special_new_methods_total (cls : class Mgr Operand) :
  Forall (fun name => is_Some (Dict.get (dunder name) (namespace cls)))
         inplace_subset ->
  exists tbl, special_new_methods cls = inr tbl.
Proof.
  unfold inplace_subset. intros Hattrs.
  repeat match goal with
         | H : Forall _ (_ :: _) |- _ =>
             apply List.Forall_cons_iff in H;
             let m := fresh "m" in
             let Hm := fresh "Hm" in
             destruct H as [[m Hm] H]; cbv [dunder append] in Hm
         end.
  unfold special_new_methods, wrap_attr, getattr. simpl kwargs.
  repeat match goal with
         | H : Dict.get _ (namespace cls) = Some _ |- _ => rewrite H
         end.
  eexists. reflexivity.
Qed.

(** The in-place name of an operation, [__i<op>__], is its special name
    with the ["i"] put in. *)
Lemma insert_i_dunder name : insert_i (dunder name) = dunder ("i" ++ name).
Proof. reflexivity. Qed.

(** C1: the in-place law.  Take an operation [op] of the in-place subset
    whose non-mutating form [__<op>__] returns on the receiver [x] and the
    operand [y] and leaves [x] as it was.  Then the table holds an in-place
    form under [__i<op>__], and a caller sees the same of calling it as of
    computing with the non-mutating form, realigning the result to [x] as
    it was before and assigning it back: [x] is returned and holds the
    result realigned to its labels; should the realignment raise, it
    raises in both and [x] holds what it held. *)
Theorem inplace_law (cls : class Mgr Operand) tbl name op x y h r h1 o ro :
  special_new_methods cls = inr tbl ->
  In name inplace_subset ->
  getattr cls (dunder name) = inr op ->
  __call__ op x y h = Ok r h1 ->
  h !! x = Some o ->
  h1 !! x = Some o ->
  h1 !! r = Some ro ->
  exists iop,
    Dict.get (dunder ("i" ++ name)) tbl = Some iop
    /\ receiver_view x (__call__ iop x y h)
       = receiver_view x (compute_realign_commit op x y h)
    /\ receiver_view x (__call__ iop x y h)
       = match realign false (_mgr ro) (_mgr o) with
         | inr d => (inr x, Some d)
         | inl e => (inl e, Some (_mgr o))
         end.
Proof.
  intros Htbl Hin Hop Hcall Hbefore Hafter Hr.
  destruct (special_new_methods_entries cls tbl Htbl) as [_ Hentries].
  rewrite List.Forall_forall in Hentries.
  destruct (Hentries name Hin) as (method & Hget & Hentry).
  assert (method = op) as -> by congruence.
  exists (_wrap_inplace_method op). rewrite <- insert_i_dunder.
  split; [exact Hentry |].
  exact (wrapper_law op x y h r h1 o ro Hcall Hbefore Hafter Hr).
Qed.

(** C3, amended: for a class that has the ten special methods, the
    in-place table has exactly ten entries, one for each of add, sub,
    mul, truediv, floordiv, mod, pow, and, or, xor, in this order; the
    entry of an operation stands under its special name with an ["i"]
    after the leading marker ([__add__] gives [__iadd__]) and is the
    in-place wrapper of the method the class has under the special name;
    a wrapped method that carries its special name gives a wrapper that
    carries the name of the entry; no comparison and neither [divmod] nor
    [rdivmod] has an entry. *)
Theorem inplace_table_names (cls : class Mgr Operand) :
  Forall (fun name => is_Some (Dict.get (dunder name) (namespace cls)))
         inplace_subset ->
  exists tbl,
    special_new_methods cls = inr tbl
    /\ Dict.keys tbl = map (fun name => insert_i (dunder name)) inplace_subset
    /\ List.length (Dict.keys tbl) = 10
    /\ Forall (fun name =>
                 exists method,
                   getattr cls (dunder name) = inr method
                   /\ Dict.get (insert_i (dunder name)) tbl
                      = Some (_wrap_inplace_method method)
                   /\ (__name__ method = dunder name ->
                       __name__ (_wrap_inplace_method method)
                       = insert_i (dunder name)))
              inplace_subset
    /\ Forall (fun name => Dict.contains (insert_i (dunder name)) tbl = false)
              (map fst comparison_ops ++ ["divmod"; "rdivmod"]).
Proof.
  intros Hattrs.
  destruct (special_new_methods_total cls Hattrs) as [tbl Htbl].
  destruct (special_new_methods_entries cls tbl Htbl) as [Hkeys Hentries].
  exists tbl. split; [exact Htbl |]. split; [exact Hkeys |].
  split; [rewrite Hkeys; reflexivity |]. split.
  - rewrite List.Forall_forall in Hentries |- *. intros name Hin.
    destruct (Hentries name Hin) as (method & Hget & Hentry).
    exists method. split; [exact Hget |]. split; [exact Hentry |].
    now apply _wrap_inplace_method_name.
  - rewrite List.Forall_forall. intros name Hin.
    unfold Dict.contains. rewrite get_not_in; [reflexivity |].
    rewrite Hkeys. revert Hin. simpl.
    intuition (subst; discriminate).
Qed.

(** The in-place methods reach the class: on a class that has the ten
    special methods [add_special_arithmetic_methods] succeeds, keeps the
    kind and pins every entry of the table. *)
Lemma add_special_arithmetic_methods_pins (cls : class Mgr Operand) :
  Forall (fun name => is_Some (Dict.get (dunder name) (namespace cls)))
         inplace_subset ->
  exists tbl cls',
    special_new_methods cls = inr tbl
    /\ add_special_arithmetic_methods cls = inr cls'
    /\ _typ cls' = _typ cls
    /\ forall k,
         getattr cls' k
         = match Dict.get k tbl with
           | Some v => inr v
           | None => getattr cls k
           end.
Proof.
  intros Hattrs.
  destruct (special_new_methods_total cls Hattrs) as [tbl Htbl].
  destruct (special_new_methods_entries cls tbl Htbl) as [Hkeys _].
  unfold add_special_arithmetic_methods. rewrite Htbl.
  do 2 eexists. split; [reflexivity |]. split; [reflexivity |].
  split; [apply _add_methods_typ |].
  intros k. apply _add_methods_getattr. rewrite Hkeys.
  apply NoDup_ListNoDup, (bool_decide_unpack _). vm_compute. reflexivity.
Qed.

End InPlaceProperties.

(** ** The theorems at the sample instance *)

Lemma get_method_wrappers_by_kind_witness :
  _get_method_wrappers Sample.Index = inl (UnboundLocalError "arith_flex")
  /\ _get_method_wrappers Sample.Series
     = inr (flex_method_SERIES, flex_method_SERIES)
  /\ _get_method_wrappers Sample.DataFrame
     = inr (flex_arith_method_FRAME, flex_comp_method_FRAME).
Proof.
  split; [| split].
  - destruct (get_method_wrappers_by_kind Sample.Index) as [H _].
    apply H; reflexivity.
  - destruct (get_method_wrappers_by_kind Sample.Series) as (_ & H & _).
    apply H; reflexivity.
  - destruct (get_method_wrappers_by_kind Sample.DataFrame) as (_ & _ & H).
    destruct (H eq_refl) as (a & c & Heq & -> & -> & _). exact Heq.
Defined.

Lemma divmod_iff_series_witness :
  (exists tbl,
     flex_new_methods Sample.call_factory Sample.Series = inr tbl
     /\ Dict.contains "divmod" tbl = true
     /\ Dict.contains "rdivmod" tbl = true)
  /\ (exists tbl,
        flex_new_methods Sample.call_factory Sample.DataFrame = inr tbl
        /\ Dict.get "divmod" tbl = None
        /\ Dict.get "rdivmod" tbl = None).
Proof.
  split.
  - destruct (divmod_iff_series Sample.call_factory Sample.Series eq_refl)
      as (tbl & Htbl & Hd & Hr & _).
    exists tbl. split; [exact Htbl |]. split.
    + apply Hd. reflexivity.
    + apply Hr. reflexivity.
  - destruct (divmod_iff_series Sample.call_factory Sample.DataFrame eq_refl)
      as (tbl & Htbl & _ & _ & _ & Hf).
    exists tbl. split; [exact Htbl |]. apply Hf. reflexivity.
Defined.

Lemma registry_entries_witness :
  supported Sample.DataFrame = true
  /\ exists tbl,
       flex_new_methods Sample.call_factory Sample.DataFrame = inr tbl
       /\ Dict.get "sub" tbl
          = Some (Sample.call_factory flex_arith_method_FRAME operator_sub)
       /\ Dict.get "rsub" tbl
          = Some (Sample.call_factory flex_arith_method_FRAME rsub)
       /\ Dict.get "eq" tbl
          = Some (Sample.call_factory flex_comp_method_FRAME operator_eq)
       /\ Dict.get "req" tbl = None.
Proof.
  split; [reflexivity |].
  destruct (registry_entries Sample.call_factory Sample.DataFrame eq_refl)
    as (a & c & tbl & Hw & Htbl & Harith & Hcomp).
  assert (a = flex_arith_method_FRAME /\ c = flex_comp_method_FRAME) as [-> ->]
      by (vm_compute in Hw; split; congruence).
  exists tbl. split; [exact Htbl |].
  apply List.Forall_cons_iff in Harith. destruct Harith as [_ Harith].
  apply List.Forall_cons_iff in Harith. destruct Harith as [[Hsub Hrsub] _].
  apply List.Forall_cons_iff in Hcomp. destruct Hcomp as [[Heq Hreq] _].
  repeat split; assumption.
Defined.

Lemma aliases_exact_witness :
  supported Sample.Series = true
  /\ exists tbl,
       flex_new_methods Sample.call_factory Sample.Series = inr tbl
       /\ forall a b h,
            call_method tbl "multiply" a b h = call_method tbl "mul" a b h.
Proof.
  split; [reflexivity |].
  destruct (aliases_exact Sample.call_factory Sample.Series eq_refl)
    as (tbl & Htbl & Halias).
  exists tbl. split; [exact Htbl |].
  apply List.Forall_cons_iff in Halias. destruct Halias as [[_ Hcall] _].
  exact Hcall.
Defined.


Lemma inplace_propagates_error_witness :
  exists h1,
    __call__ Sample.counting_failure Sample.x (Sample.Scalar 1) Sample.h0
    = Raise (TypeError "unsupported operand type") h1
    /\ __call__ (_wrap_inplace_method Sample.counting_failure)
         Sample.x (Sample.Scalar 1) Sample.h0
       = Raise (TypeError "unsupported operand type") h1
    /\ size h1 = S (size Sample.h0).
Proof.
  eexists. split; [vm_compute; reflexivity |]. split.
  - apply (inplace_propagates_error Sample.counting_failure).
    vm_compute. reflexivity.
  - vm_compute. reflexivity.
Defined.

Lemma inplace_failure_leaves_receiver_witness :
  exists hf,
    __call__ Sample.iadd Sample.x (Sample.Text "a") Sample.h0
    = Raise (TypeError "unsupported operand type") hf
    /\ hf !! Sample.x
       = Some {| _mgr := Sample.series [1; 2; 3]%Z 0%Z;
                 _cacher := Some Sample.parent |}.
Proof.
  destruct (inplace_failure_leaves_receiver (Sample.binop "__add__" Z.add)
              Sample.x (Sample.Text "a") Sample.h0
              (TypeError "unsupported operand type") Sample.h0)
    as (hf & Hraise & Hsame & _).
  - vm_compute. reflexivity.
  - exists hf. split; [exact Hraise |]. rewrite Hsame. vm_compute. reflexivity.
Defined.

Lemma inplace_returns_receiver_witness :
  exists hf,
    __call__ Sample.iadd Sample.x (Sample.Container Sample.y) Sample.h0
    = Ok Sample.x hf.
Proof.
  edestruct (inplace_returns_receiver (Sample.binop "__add__" Z.add)
               Sample.x (Sample.Container Sample.y) Sample.h0)
    as [Hret _].
  - vm_compute. reflexivity.
  - vm_compute. reflexivity.
  - vm_compute. reflexivity.
  - vm_compute. reflexivity.
  - vm_compute. reflexivity.
  - exact Hret.
Defined.

(** C2 as stated fails: on a receiver with a duplicated label the addition
    returns a live container and leaves the receiver as it was, yet the
    in-place addition does not return the receiver: the realignment of
    the result raises. *)
Lemma inplace_need_not_return :
  ~ (forall (method : function Sample.Mgr Sample.Operand) self other h
            r h1 o ro,
       h !! self = Some o ->
       __call__ method self other h = Ok r h1 ->
       h1 !! self = Some o ->
       h1 !! r = Some ro ->
       exists hf,
         __call__ (_wrap_inplace_method method) self other h = Ok self hf).
Proof.
  intros Hclaim.
  edestruct (Hclaim (Sample.binop "__add__" Z.add)
               Sample.x (Sample.Container Sample.y) Sample.h_dup)
    as [hf Hret].
  - vm_compute. reflexivity.
  - vm_compute. reflexivity.
  - vm_compute. reflexivity.
  - vm_compute. reflexivity.
  - vm_compute in Hret. discriminate.
Qed.

Lemma inplace_law_witness :
  exists tbl iadd,
    special_new_methods Sample.Series = inr tbl
    /\ Dict.get "__iadd__" tbl = Some iadd
    /\ receiver_view Sample.x
         (__call__ iadd Sample.x (Sample.Container Sample.y) Sample.h0)
       = (inr Sample.x, Some [(0, Some 2); (1, Some 3); (2, Some 4)]%Z).
Proof.
  destruct (special_new_methods_total Sample.Series) as [tbl Htbl].
  { repeat (apply List.Forall_cons; [eexists; reflexivity |]).
    apply List.Forall_nil. }
  exists tbl.
  edestruct (inplace_law Sample.Series tbl "add"
               (Sample.binop "__add__" Z.add)
               Sample.x (Sample.Container Sample.y) Sample.h0)
    as (iadd & Hentry & _ & Hlaw).
  - exact Htbl.
  - left. reflexivity.
  - reflexivity.
  - vm_compute. reflexivity.
  - vm_compute. reflexivity.
  - vm_compute. reflexivity.
  - vm_compute. reflexivity.
  - exists iadd. split; [exact Htbl |]. split; [exact Hentry | exact Hlaw].
Defined.

Lemma inplace_table_names_witness :
  exists tbl,
    special_new_methods Sample.Series = inr tbl
    /\ Dict.keys tbl
       = [ "__iadd__"; "__isub__"; "__imul__"; "__itruediv__";
           "__ifloordiv__"; "__imod__"; "__ipow__";
           "__iand__"; "__ior__"; "__ixor__" ].
Proof.
  destruct (inplace_table_names Sample.Series) as (tbl & Htbl & Hkeys & _).
  - repeat (apply List.Forall_cons; [eexists; reflexivity |]).
    apply List.Forall_nil.
  - exists tbl. split; [exact Htbl | exact Hkeys].
Defined.

(** C3 as stated fails: the in-place table has ten entries, not fourteen. *)
Lemma inplace_table_not_fourteen :
  ~ (exists tbl,
       special_new_methods Sample.Series = inr tbl
       /\ List.length (Dict.keys tbl) = 14).
Proof.
  intros (tbl & Htbl & Hlen).
  apply special_new_methods_entries in Htbl. destruct Htbl as [Hkeys _].
  rewrite Hkeys in Hlen. discriminate.
Qed.

(** * Further properties of the module *)

(** ** More on dictionaries *)

Section DictFacts.

Context {V : Type}.
Implicit Types (d other : Dict.t V) (k : string) (v : V).

(** Assigning to a key the value it holds changes nothing. *)
Lemma set_same d k v : Dict.get k d = Some v -> Dict.set k v d = d.
Proof.
  induction d as [| [k0 v0] d IH]; simpl; [discriminate |].
  destruct (String.eqb k k0) eqn:E.
  - apply String.eqb_eq in E. intros [= ->]. now subst k0.
  - intros H. now rewrite (IH H).
Qed.

(** An item of a dictionary is what its key holds. *)
Lemma get_item d k v :
  List.NoDup (Dict.keys d) -> In (k, v) d -> Dict.get k d = Some v.
Proof.
  induction d as [| [k0 v0] d IH]; simpl; intros Hnd Hin; [destruct Hin |].
  apply List.NoDup_cons_iff in Hnd. destruct Hnd as [Hnotin Hnd].
  destruct Hin as [[= -> ->] | Hin].
  - now rewrite String.eqb_refl.
  - destruct (String.eqb k k0) eqn:E; [| now apply IH].
    apply String.eqb_eq in E. subst k0. exfalso. apply Hnotin.
    apply (in_map fst) in Hin. exact Hin.
Qed.

(** A key of a dictionary holds a value. *)
Lemma get_key d k : In k (Dict.keys d) -> is_Some (Dict.get k d).
Proof.
  induction d as [| [k0 v0] d IH]; simpl; [intros [] |].
  intros Hin. destruct (String.eqb k k0) eqn:E; [eauto |].
  destruct Hin as [-> | Hin]; [| now apply IH].
  now rewrite String.eqb_refl in E.
Qed.

Lemma keys_set_keep d k v k' :
  In k' (Dict.keys d) -> In k' (Dict.keys (Dict.set k v d)).
Proof.
  induction d as [| [k0 v0] d IH]; simpl; [intros [] |].
  destruct (String.eqb k k0) eqn:E; simpl.
  - apply String.eqb_eq in E. subst k0. tauto.
  - intros [-> | Hin]; [now left | right; now apply IH].
Qed.


Lemma keys_update_keep d other k :
  In k (Dict.keys d) -> In k (Dict.keys (Dict.update d other)).
Proof.
  unfold Dict.update. revert d.
  induction other as [| [k0 v0] other IH]; simpl; intros d Hin; [exact Hin |].
  apply IH. now apply keys_set_keep.
Qed.

(** Updating with items the dictionary holds already changes nothing. *)
Lemma update_same d other :
  (forall k v, In (k, v) other -> Dict.get k d = Some v) ->
  Dict.update d other = d.
Proof.
  unfold Dict.update.
  induction other as [| [k v] other IH]; simpl; intros Hheld; [reflexivity |].
  rewrite (set_same d k v) by (apply Hheld; now left).
  apply IH. intros k' v' Hin. apply Hheld. now right.
Qed.

(** A second update with the same items is without effect. *)
Lemma update_twice d other :
  List.NoDup (Dict.keys other) ->
  Dict.update (Dict.update d other) other = Dict.update d other.
Proof.
  intros Hnd. apply update_same. intros k v Hin.
  rewrite (get_update _ _ _ Hnd). now rewrite (get_item other k v Hnd Hin).
Qed.

End DictFacts.

(** ** Pinning *)

Section Pinning.

Context {Mgr Operand : Type}.
Implicit Types (cls : class Mgr Operand) (tbl : Dict.t (function Mgr Operand)).

(** What [_add_methods] returns, in one piece. *)
Lemma _add_methods_record cls tbl :
  _add_methods cls tbl
  = {| _typ := _typ cls; namespace := Dict.update (namespace cls) tbl |}.
Proof.
  unfold _add_methods, Dict.update. revert cls.
  induction tbl as [| [k v] tbl IH]; simpl; intros cls.
  - now destruct cls.
  - now rewrite IH.
Qed.

Lemma _add_methods_twice cls tbl :
  List.NoDup (Dict.keys tbl) ->
  _add_methods (_add_methods cls tbl) tbl = _add_methods cls tbl.
Proof.
  intros Hnd. rewrite !_add_methods_record. simpl.
  now rewrite (update_twice _ _ Hnd).
Qed.


(** X2: pinning the same table a second time changes nothing: the class
    is the one the first pinning gave. *)
Theorem pinning_twice cls tbl :
  List.NoDup (Dict.keys tbl) ->
  _add_methods (_add_methods cls tbl) tbl = _add_methods cls tbl.
Proof. apply _add_methods_twice. Qed.

End Pinning.

(** ** The build of the flex methods, as a whole *)

Section FlexBuild.

Context {Mgr Operand : Type}.
Variable call_factory : wrapper_factory -> primitive -> function Mgr Operand.

Implicit Types (cls : class Mgr Operand) (tbl : Dict.t (function Mgr Operand)).
Implicit Types (arith comp : primitive -> function Mgr Operand).

(** No flex method has a name that begins with an underscore. *)
Lemma flex_table_no_underscore have_divmod arith comp k :
  PyStr.startswith "_" k = true ->
  Dict.get k (flex_table have_divmod arith comp) = None.
Proof.
  destruct k as [| c k]; cbn [PyStr.startswith]; [discriminate |].
  intros H. apply andb_true_iff in H. destruct H as [E _].
  apply Ascii.eqb_eq in E. subst c.
  destruct have_divmod; reflexivity.
Qed.

(** The build looks at the tag of the class and at nothing else. *)
Lemma flex_new_methods_typ cls cls' :
  _typ cls' = _typ cls ->
  flex_new_methods call_factory cls' = flex_new_methods call_factory cls.
Proof.
  intros Htyp.
  unfold flex_new_methods, _get_method_wrappers, _create_methods,
    issubclass_ABCSeries, issubclass_ABCDataFrame.
  now rewrite Htyp.
Qed.

Lemma supported_typ cls cls' :
  _typ cls' = _typ cls -> supported cls' = supported cls.
Proof.
  intros Htyp.
  unfold supported, issubclass_ABCSeries, issubclass_ABCDataFrame.
  now rewrite Htyp.
Qed.

(** A build that succeeds was one on a supported type and pinned the
    table written out. *)
Lemma add_flex_arithmetic_methods_inv cls cls' :
  add_flex_arithmetic_methods call_factory cls = inr cls' ->
  supported cls = true
  /\ exists wa wc,
       flex_new_methods call_factory cls
       = inr (flex_table (issubclass_ABCSeries cls)
                (call_factory wa) (call_factory wc))
       /\ cls' = _add_methods cls
                   (flex_table (issubclass_ABCSeries cls)
                      (call_factory wa) (call_factory wc)).
Proof.
  intros Hbuild. destruct (supported cls) eqn:Hsup.
  - split; [reflexivity |].
    destruct (flex_new_methods_supported call_factory cls Hsup)
      as (wa & wc & _ & Htbl).
    exists wa, wc. split; [exact Htbl |].
    unfold add_flex_arithmetic_methods in Hbuild. rewrite Htbl in Hbuild.
    cbn [rbind] in Hbuild. now injection Hbuild as <-.
  - rewrite (add_flex_arithmetic_methods_other call_factory cls Hsup)
      in Hbuild.
    discriminate.
Qed.

(** X3: what the build of the flex methods does to a supported class.  It
    succeeds and keeps the kind; the class then answers every name of the
    table with the entry of the table and every other name as before.  No
    name that begins with an underscore is touched: the special methods
    behind the operators are those the class had. *)
Theorem flex_build_pins cls :
  supported cls = true ->
  exists tbl cls',
    flex_new_methods call_factory cls = inr tbl
    /\ add_flex_arithmetic_methods call_factory cls = inr cls'
    /\ _typ cls' = _typ cls
    /\ (forall k m, Dict.get k tbl = Some m -> getattr cls' k = inr m)
    /\ (forall k, Dict.get k tbl = None -> getattr cls' k = getattr cls k)
    /\ (forall k, PyStr.startswith "_" k = true ->
                  getattr cls' k = getattr cls k).
Proof.
  intros Hsup.
  destruct (add_flex_arithmetic_methods_pins call_factory cls Hsup)
    as (tbl & cls' & Htbl & Hbuild & Htyp & Hget).
  destruct (flex_new_methods_supported call_factory cls Hsup)
    as (wa & wc & _ & Htbl').
  exists tbl, cls'. split; [exact Htbl |]. split; [exact Hbuild |].
  split; [exact Htyp |]. split; [| split].
  - intros k m Hk. now rewrite Hget, Hk.
  - intros k Hk. now rewrite Hget, Hk.
  - intros k Hk. rewrite Hget.
    assert (tbl = flex_table (issubclass_ABCSeries cls)
                    (call_factory wa) (call_factory wc)) as ->
        by congruence.
    now rewrite (flex_table_no_underscore _ _ _ k Hk).
Qed.

(** X4: how the build of the flex methods can end.  It pins exactly when
    the type is a 1-D or a 2-D labeled container; on any other type it
    raises [UnboundLocalError] and nothing is pinned.  Its assertion never
    fails and none of its subscripts misses a key, on any class. *)
Theorem flex_build_outcome cls :
  (supported cls = true <->
   exists cls', add_flex_arithmetic_methods call_factory cls = inr cls')
  /\ (supported cls = false ->
      add_flex_arithmetic_methods call_factory cls
      = inl (UnboundLocalError "arith_flex"))
  /\ add_flex_arithmetic_methods call_factory cls <> inl AssertionError
  /\ forall k,
       add_flex_arithmetic_methods call_factory cls <> inl (KeyError k).
Proof.
  assert (Hother := add_flex_arithmetic_methods_other call_factory cls).
  split; [split |].
  - intros Hsup.
    destruct (add_flex_arithmetic_methods_pins call_factory cls Hsup)
      as (tbl & cls' & _ & Hbuild & _). eauto.
  - intros [cls' Hbuild].
    now destruct (add_flex_arithmetic_methods_inv cls cls' Hbuild).
  - split; [exact Hother |].
    destruct (supported cls) eqn:Hsup.
    + destruct (add_flex_arithmetic_methods_pins call_factory cls Hsup)
        as (tbl & cls' & _ & Hbuild & _).
      rewrite Hbuild. split; [| intros k]; discriminate.
    + rewrite (Hother eq_refl). split; [| intros k]; discriminate.
Qed.

(** X5: building the flex methods a second time changes nothing: on the
    class a first build gave, the build succeeds and gives that class. *)
Theorem flex_build_twice cls cls' :
  add_flex_arithmetic_methods call_factory cls = inr cls' ->
  add_flex_arithmetic_methods call_factory cls' = inr cls'.
Proof.
  intros Hbuild.
  destruct (add_flex_arithmetic_methods_inv cls cls' Hbuild)
    as (Hsup & wa & wc & Htbl & ->).
  unfold add_flex_arithmetic_methods.
  rewrite (flex_new_methods_typ cls _ (_add_methods_typ cls _)), Htbl.
  cbn [rbind]. f_equal. apply _add_methods_twice, flex_table_nodup.
Qed.

End FlexBuild.

(** ** The build of the in-place methods, as a whole *)

Section SpecialBuild.

Context {Mgr Operand : Type} {engine : Engine Mgr}.

Implicit Types (cls : class Mgr Operand) (tbl : Dict.t (function Mgr Operand)).
Implicit Types (method : function Mgr Operand).

(** The names of the in-place table begin with ["__i"]; the special name
    of no operation of the subset does. *)
Lemma inplace_name_shape k :
  In k (map (fun name => insert_i (dunder name)) inplace_subset) ->
  PyStr.startswith "__i" k = true.
Proof.
  simpl. intros Hin.
  repeat (destruct Hin as [<- | Hin]; [reflexivity |]). destruct Hin.
Qed.

Lemma special_name_shape name :
  In name inplace_subset -> PyStr.startswith "__i" (dunder name) = false.
Proof.
  simpl. intros Hin.
  repeat (destruct Hin as [<- | Hin]; [reflexivity |]). destruct Hin.
Qed.

(** The build reads the ten special methods of the class and nothing
    else. *)
Lemma special_new_methods_ext cls cls' :
  Forall (fun name => getattr cls' (dunder name) = getattr cls (dunder name))
         inplace_subset ->
  special_new_methods cls' = special_new_methods cls.
Proof.
  unfold inplace_subset. intros Hsame.
  repeat match goal with
         | H : Forall _ (_ :: _) |- _ =>
             apply List.Forall_cons_iff in H;
             let Hn := fresh "Hn" in
             destruct H as [Hn H]; cbv [dunder append] in Hn
         end.
  unfold special_new_methods, wrap_attr. simpl kwargs.
  repeat match goal with
         | H : getattr cls' _ = getattr cls _ |- _ => rewrite H; clear H
         end.
  reflexivity.
Qed.

(** A build that succeeds has pinned the table. *)
Lemma add_special_arithmetic_methods_inv cls cls' :
  add_special_arithmetic_methods cls = inr cls' ->
  exists tbl,
    special_new_methods cls = inr tbl /\ cls' = _add_methods cls tbl.
Proof.
  unfold add_special_arithmetic_methods.
  destruct (special_new_methods cls) as [e | tbl]; cbn [rbind];
    [discriminate |].
  intros H. injection H as <-. eauto.
Qed.

(** The keys of a table of in-place methods are unique. *)
Lemma special_new_methods_nodup cls tbl :
  special_new_methods cls = inr tbl -> List.NoDup (Dict.keys tbl).
Proof.
  intros Htbl.
  destruct (special_new_methods_entries cls tbl Htbl) as [-> _].
  apply NoDup_ListNoDup, (bool_decide_unpack _). vm_compute. reflexivity.
Qed.

(** The pinning of the in-place methods leaves the special methods of the
    subset as they were. *)
Lemma special_methods_kept cls tbl name :
  special_new_methods cls = inr tbl ->
  In name inplace_subset ->
  getattr (_add_methods cls tbl) (dunder name) = getattr cls (dunder name).
Proof.
  intros Htbl Hin.
  rewrite (_add_methods_getattr cls tbl _ (special_new_methods_nodup _ _ Htbl)).
  rewrite get_not_in; [reflexivity |].
  destruct (special_new_methods_entries cls tbl Htbl) as [-> _].
  intros Hkey. apply inplace_name_shape in Hkey.
  now rewrite (special_name_shape name Hin) in Hkey.
Qed.

(** X6: a class that lacks one of the ten special methods gets no
    in-place method at all: the build raises [AttributeError] for the
    first one that is missing, in the order add, sub, mul, truediv,
    floordiv, mod, pow, and, or, xor, and pins nothing. *)
Theorem special_build_first_missing cls name :
  find (fun n => negb (Dict.contains (dunder n) (namespace cls)))
       inplace_subset = Some name ->
  add_special_arithmetic_methods cls = inl (AttributeError (dunder name)).
Proof.
  unfold add_special_arithmetic_methods, special_new_methods, wrap_attr,
    getattr, inplace_subset, Dict.contains.
  cbv [dunder append find]. simpl kwargs.
  repeat match goal with
         | |- context [Dict.get ?k (namespace cls)] =>
             destruct (Dict.get k (namespace cls));
             cbn [negb rbind];
             [| intros H; injection H as <-; reflexivity]
         end.
  discriminate.
Qed.

(** [setattr] and [getattr]. *)
Lemma getattr_setattr_eq cls k method :
  getattr (setattr cls k method) k = inr method.
Proof. unfold getattr, setattr. simpl. now rewrite get_set_eq. Qed.

Lemma getattr_setattr_ne cls k k' method :
  k <> k' -> getattr (setattr cls k method) k' = getattr cls k'.
Proof. intros Hne. unfold getattr, setattr. simpl. now rewrite get_set_ne. Qed.

(** The special name of an operation of the subset is not the name of its
    in-place form. *)
Lemma special_name_not_inplace name :
  In name inplace_subset -> dunder name <> dunder ("i" ++ name).
Proof.
  intros Hin Heq. pose proof (special_name_shape name Hin) as Hshape.
  rewrite Heq in Hshape. discriminate.
Qed.

(** What a class has under the special names after a build. *)
Lemma special_build_entry cls tbl name method :
  special_new_methods cls = inr tbl ->
  In name inplace_subset ->
  getattr cls (dunder name) = inr method ->
  getattr (_add_methods cls tbl) (dunder ("i" ++ name))
  = inr (_wrap_inplace_method method).
Proof.
  intros Htbl Hin Hmethod.
  rewrite (_add_methods_getattr cls tbl _ (special_new_methods_nodup _ _ Htbl)).
  destruct (special_new_methods_entries cls tbl Htbl) as [_ Hentries].
  rewrite List.Forall_forall in Hentries.
  destruct (Hentries name Hin) as (method0 & Hget & Hentry).
  rewrite insert_i_dunder in Hentry. rewrite Hentry. congruence.
Qed.

(** X7: what the build of the in-place methods does to a class that has
    the ten special methods, of whatever kind.  It succeeds and keeps the
    kind; for each operation of the subset the class then has, under
    [__i<op>__], the wrapper of the method it has under [__<op>__], which
    is the one it had; every name that is not one of the ten in-place
    names is answered as before. *)
Theorem special_build_pins cls :
  Forall (fun name => is_Some (Dict.get (dunder name) (namespace cls)))
         inplace_subset ->
  exists cls',
    add_special_arithmetic_methods cls = inr cls'
    /\ _typ cls' = _typ cls
    /\ Forall (fun name =>
                 exists method,
                   getattr cls (dunder name) = inr method
                   /\ getattr cls' (dunder name) = inr method
                   /\ getattr cls' (dunder ("i" ++ name))
                      = inr (_wrap_inplace_method method))
              inplace_subset
    /\ forall k,
         ~ In k (map (fun name => dunder ("i" ++ name)) inplace_subset) ->
         getattr cls' k = getattr cls k.
Proof.
  intros Hattrs.
  destruct (special_new_methods_total cls Hattrs) as [tbl Htbl].
  pose proof (special_new_methods_nodup cls tbl Htbl) as Hnd.
  destruct (special_new_methods_entries cls tbl Htbl) as [Hkeys Hentries].
  exists (_add_methods cls tbl).
  split; [unfold add_special_arithmetic_methods; now rewrite Htbl |].
  split; [apply _add_methods_typ |]. split.
  - rewrite List.Forall_forall in Hentries |- *. intros name Hin.
    destruct (Hentries name Hin) as (method & Hget & _).
    exists method. split; [exact Hget |]. split.
    + now rewrite (special_methods_kept cls tbl name Htbl Hin).
    + now apply special_build_entry.
  - intros k Hk. rewrite (_add_methods_getattr cls tbl k Hnd).
    rewrite get_not_in; [reflexivity |]. now rewrite Hkeys.
Qed.

(** X8: building the in-place methods a second time changes nothing: on
    the class a first build gave, the build wraps the same methods under
    the same names and gives that class. *)
Theorem special_build_twice cls cls' :
  add_special_arithmetic_methods cls = inr cls' ->
  add_special_arithmetic_methods cls' = inr cls'.
Proof.
  intros Hbuild.
  destruct (add_special_arithmetic_methods_inv cls cls' Hbuild)
    as (tbl & Htbl & ->).
  assert (special_new_methods (_add_methods cls tbl) = inr tbl) as Htbl'.
  { rewrite <- Htbl. apply special_new_methods_ext.
    rewrite List.Forall_forall. intros name Hin.
    now apply special_methods_kept. }
  unfold add_special_arithmetic_methods. rewrite Htbl'. cbn [rbind].
  f_equal. apply _add_methods_twice.
  exact (special_new_methods_nodup cls tbl Htbl).
Qed.

(** X10: the in-place methods are bound at the build.  Rebinding a special
    method of the class afterwards leaves the in-place method wrapping
    the method that was there at the build; a new build on the class
    wraps the new one. *)
Theorem inplace_binds_at_build cls cls' name method method' :
  add_special_arithmetic_methods cls = inr cls' ->
  In name inplace_subset ->
  getattr cls (dunder name) = inr method ->
  getattr (setattr cls' (dunder name) method') (dunder ("i" ++ name))
  = inr (_wrap_inplace_method method)
  /\ exists cls'',
       add_special_arithmetic_methods (setattr cls' (dunder name) method')
       = inr cls''
       /\ getattr cls'' (dunder ("i" ++ name))
          = inr (_wrap_inplace_method method').
Proof.
  intros Hbuild Hin Hmethod.
  destruct (add_special_arithmetic_methods_inv cls cls' Hbuild)
    as (tbl & Htbl & ->).
  set (rebound := setattr (_add_methods cls tbl) (dunder name) method').
  split.
  - unfold rebound.
    rewrite getattr_setattr_ne by now apply special_name_not_inplace.
    now apply special_build_entry.
  - destruct (special_new_methods_entries cls tbl Htbl) as [_ Hentries].
    rewrite List.Forall_forall in Hentries.
    assert (Forall (fun n => is_Some (Dict.get (dunder n) (namespace rebound)))
                   inplace_subset) as Hattrs.
    { rewrite List.Forall_forall. intros n Hn.
      destruct (Hentries n Hn) as (m & Hget & _).
      pose proof (special_methods_kept cls tbl n Htbl Hn) as Hkept.
      rewrite Hget in Hkept. unfold rebound, setattr. simpl.
      destruct (String.eqb_spec (dunder name) (dunder n)) as [<- | Hne].
      - rewrite get_set_eq. eauto.
      - rewrite get_set_ne by exact Hne.
        unfold getattr in Hkept.
        destruct (Dict.get (dunder n) (namespace (_add_methods cls tbl)));
          [eauto | discriminate]. }
    destruct (special_new_methods_total rebound Hattrs) as [tbl' Htbl'].
    exists (_add_methods rebound tbl').
    split; [unfold add_special_arithmetic_methods; now rewrite Htbl' |].
    apply special_build_entry; [exact Htbl' | exact Hin |].
    apply getattr_setattr_eq.
Qed.

End SpecialBuild.

(** ** The two builds together *)

Section BothBuilds.

Context {Mgr Operand : Type} {engine : Engine Mgr}.
Variable call_factory : wrapper_factory -> primitive -> function Mgr Operand.

Implicit Types (cls : class Mgr Operand) (tbl : Dict.t (function Mgr Operand)).

Lemma get_some_key {V : Type} (d : Dict.t V) k v :
  Dict.get k d = Some v -> In k (Dict.keys d).
Proof.
  intros Hget. destruct (in_dec string_dec k (Dict.keys d)) as [Hin | Hnotin];
    [exact Hin |].
  rewrite (get_not_in d k Hnotin) in Hget. discriminate.
Qed.

Lemma special_name_underscore name :
  PyStr.startswith "_" (dunder name) = true.
Proof. reflexivity. Qed.

Lemma inplace_name_underscore k :
  PyStr.startswith "__i" k = true -> PyStr.startswith "_" k = true.
Proof.
  destruct k as [| c k]; cbn [PyStr.startswith]; [discriminate |].
  intros H. apply andb_true_iff in H. destruct H as [-> _]. reflexivity.
Qed.

(** The flex build leaves the special methods as they were. *)
Lemma flex_keeps_special_methods cls have_divmod arith comp name :
  getattr (_add_methods cls (flex_table have_divmod arith comp)) (dunder name)
  = getattr cls (dunder name).
Proof.
  rewrite _add_methods_getattr by apply flex_table_nodup.
  now rewrite (flex_table_no_underscore _ _ _ _ (special_name_underscore name)).
Qed.

(** X9: the two builds do not interfere.  On a supported class that has
    the ten special methods both orders succeed, the build of the in-place
    methods after that of the flex methods and the other way round, and
    the two classes obtained answer every name alike: no name is pinned by
    both builds, and neither reads what the other pins. *)
Theorem builds_commute cls :
  supported cls = true ->
  Forall (fun name => is_Some (Dict.get (dunder name) (namespace cls)))
         inplace_subset ->
  exists flexed both inplaced both',
    add_flex_arithmetic_methods call_factory cls = inr flexed
    /\ add_special_arithmetic_methods flexed = inr both
    /\ add_special_arithmetic_methods cls = inr inplaced
    /\ add_flex_arithmetic_methods call_factory inplaced = inr both'
    /\ forall k, getattr both k = getattr both' k.
Proof.
  intros Hsup Hattrs.
  destruct (flex_new_methods_supported call_factory cls Hsup)
    as (wa & wc & _ & Hft).
  set (ft := flex_table (issubclass_ABCSeries cls)
               (call_factory wa) (call_factory wc)) in *.
  destruct (special_new_methods_total cls Hattrs) as [st Hst].
  pose proof (special_new_methods_nodup cls st Hst) as Hnd.
  destruct (special_new_methods_entries cls st Hst) as [Hkeys _].
  assert (special_new_methods (_add_methods cls ft) = inr st) as Hst'.
  { rewrite <- Hst. apply special_new_methods_ext.
    rewrite List.Forall_forall. intros name _.
    apply flex_keeps_special_methods. }
  assert (flex_new_methods call_factory (_add_methods cls st) = inr ft)
    as Hft'.
  { rewrite <- Hft. apply flex_new_methods_typ, _add_methods_typ. }
  exists (_add_methods cls ft), (_add_methods (_add_methods cls ft) st),
    (_add_methods cls st), (_add_methods (_add_methods cls st) ft).
  unfold add_flex_arithmetic_methods, add_special_arithmetic_methods.
  rewrite Hft, Hst, Hft', Hst'. cbn [rbind].
  repeat (split; [reflexivity |]).
  intros k.
  repeat (rewrite (_add_methods_getattr _ st k Hnd)
          || rewrite (_add_methods_getattr _ ft k (flex_table_nodup _ _ _))).
  destruct (Dict.get k st) as [v |] eqn:Hk; [| reflexivity].
  apply get_some_key in Hk. rewrite Hkeys in Hk.
  apply inplace_name_shape, inplace_name_underscore in Hk.
  unfold ft. now rewrite (flex_table_no_underscore _ _ _ k Hk).
Qed.

End BothBuilds.

(** ** The name of an in-place wrapper *)

Section Naming.

Context {Mgr Operand : Type} {engine : Engine Mgr}.

Implicit Types (cs s n : string) (l : list ascii) (c : ascii).

Lemma list_ascii_of_string_app s1 s2 :
  list_ascii_of_string (s1 ++ s2)%string
  = (list_ascii_of_string s1 ++ list_ascii_of_string s2)%list.
Proof. induction s1 as [| c s1 IH]; simpl; [reflexivity | now rewrite IH]. Qed.

Lemma append_inv_tail s1 s2 s : (s1 ++ s = s2 ++ s)%string -> s1 = s2.
Proof.
  intros H. apply (f_equal list_ascii_of_string) in H.
  rewrite !list_ascii_of_string_app in H. apply app_inv_tail in H.
  apply (f_equal string_of_list_ascii) in H.
  now rewrite !string_of_list_ascii_of_string in H.
Qed.

(** [strip] on the characters of the string. *)
Lemma strip_chars cs s :
  PyStr.strip cs s
  = string_of_list_ascii
      (rev (PyStr.lstrip_list cs
              (rev (PyStr.lstrip_list cs (list_ascii_of_string s))))).
Proof.
  unfold PyStr.strip, PyStr.rstrip, PyStr.lstrip.
  now rewrite list_ascii_of_string_of_list_ascii.
Qed.

(** Only the set of characters to strip matters. *)
Lemma lstrip_list_ext cs cs' l :
  (forall c, PyStr.in_chars c cs = PyStr.in_chars c cs') ->
  PyStr.lstrip_list cs l = PyStr.lstrip_list cs' l.
Proof.
  intros Hsame. induction l as [| c l IH]; simpl; [reflexivity |].
  rewrite Hsame, IH. reflexivity.
Qed.

Lemma strip_ext cs cs' s :
  (forall c, PyStr.in_chars c cs = PyStr.in_chars c cs') ->
  PyStr.strip cs s = PyStr.strip cs' s.
Proof.
  intros Hsame. rewrite !strip_chars.
  now rewrite !(lstrip_list_ext cs cs' _ Hsame).
Qed.

(** A character to strip in front of the string goes. *)
Lemma strip_cons cs c s :
  PyStr.in_chars c cs = true ->
  PyStr.strip cs (String c s) = PyStr.strip cs s.
Proof. intros Hc. rewrite !strip_chars. simpl. now rewrite Hc. Qed.

Lemma lstrip_list_snoc cs l c :
  PyStr.lstrip_list cs (l ++ [c])
  = match PyStr.lstrip_list cs l with
    | [] => PyStr.lstrip_list cs [c]
    | a :: rest => (a :: rest) ++ [c]
    end.
Proof.
  induction l as [| a l IH]; simpl; [reflexivity |].
  destruct (PyStr.in_chars a cs); [exact IH | reflexivity].
Qed.

(** So does one at its end. *)
Lemma strip_snoc cs s c :
  PyStr.in_chars c cs = true ->
  PyStr.strip cs (s ++ String c "")%string = PyStr.strip cs s.
Proof.
  intros Hc. rewrite !strip_chars, list_ascii_of_string_app. simpl.
  rewrite lstrip_list_snoc.
  destruct (PyStr.lstrip_list cs (list_ascii_of_string s)) as [| a rest].
  - simpl. now rewrite Hc.
  - rewrite rev_app_distr. simpl rev at 2. simpl. now rewrite Hc.
Qed.

(** Stripping the special name of an operation strips the name of the
    operation. *)
Lemma strip_dunder n : PyStr.strip "__" (dunder n) = PyStr.strip "_" n.
Proof.
  rewrite (strip_ext "__" "_").
  2:{ intros c. unfold PyStr.in_chars. simpl.
      now destruct (Ascii.eqb c "_"). }
  unfold dunder.
  change ("__" ++ n ++ "__")%string
    with (String "_" (String "_" (n ++ "__")%string)).
  rewrite !strip_cons by reflexivity.
  replace (n ++ "__")%string with ((n ++ "_") ++ "_")%string.
  - rewrite !strip_snoc by reflexivity. reflexivity.
  - clear. induction n as [| c n IH]; [reflexivity |].
    change (String c ((n ++ "_") ++ "_")%string
            = String c (n ++ "__")%string).
    now rewrite IH.
Qed.

(** X11: the name of an in-place wrapper.  For a method named [__<n>__]
    the wrapper is named [__i<m>__], where [m] is [n] without the
    underscores at its ends.  This is the name with an ["i"] after the
    leading marker exactly when [n] has no underscore at either end. *)
Theorem wrapper_name (method : function Mgr Operand) n :
  __name__ method = dunder n ->
  __name__ (_wrap_inplace_method method)
  = dunder ("i" ++ PyStr.strip "_" n)%string
  /\ (__name__ (_wrap_inplace_method method) = insert_i (__name__ method)
      <-> PyStr.strip "_" n = n).
Proof.
  intros Hname.
  assert (__name__ (_wrap_inplace_method method)
          = dunder ("i" ++ PyStr.strip "_" n)%string) as Hwrap.
  { simpl. rewrite Hname, strip_dunder. reflexivity. }
  split; [exact Hwrap |].
  rewrite Hwrap, Hname, insert_i_dunder. split.
  - intros H. unfold dunder in H. simpl in H. injection H as H.
    now apply append_inv_tail in H.
  - now intros ->.
Qed.

End Naming.

(** ** What an in-place call leaves behind *)

Section InPlaceOutcome.

Context {Mgr Operand : Type} {engine : Engine Mgr}.

Implicit Types (method : function Mgr Operand) (self r : loc)
  (other : Operand) (h : gmap loc (NDFrame Mgr)) (o : NDFrame Mgr).

(** X12: an in-place call is not all or nothing.  When the wrapped method
    has returned and the realignment of its result raises, the exception
    of the realignment leaves the in-place method; the receiver has kept
    its storage but has already lost its cacher, and every other
    container is as the method left it. *)
Theorem inplace_failed_realignment method self other h r h1 o ro e :
  __call__ method self other h = Ok r h1 ->
  h1 !! self = Some o ->
  h1 !! r = Some ro ->
  realign false (_mgr ro) (_mgr o) = inl e ->
  exists hf,
    __call__ (_wrap_inplace_method method) self other h = Raise e hf
    /\ hf !! self = Some {| _mgr := _mgr o; _cacher := None |}
    /\ forall l, l <> self -> hf !! l = h1 !! l.
Proof.
  intros Hcall Hself Hr Hrealign.
  pose proof (f_after_method method self other h r h1 o ro Hcall Hself Hr)
    as Hf.
  rewrite Hrealign in Hf. eexists. split; [exact Hf |]. split.
  - apply lookup_insert_eq.
  - intros l Hl. now rewrite lookup_insert_ne.
Qed.

(** X13: what a successful in-place call changes.  When the wrapped
    method has returned and the realignment of its result succeeds, the
    receiver holds the realigned storage and has no cacher any more,
    whatever cacher it had; every other container that existed when the
    method returned, the operand and the parent of the receiver among
    them, is as the method left it. *)
Theorem inplace_success_frame method self other h r h1 o ro d :
  __call__ method self other h = Ok r h1 ->
  h1 !! self = Some o ->
  h1 !! r = Some ro ->
  realign false (_mgr ro) (_mgr o) = inr d ->
  exists hf,
    __call__ (_wrap_inplace_method method) self other h = Ok self hf
    /\ hf !! self = Some {| _mgr := d; _cacher := None |}
    /\ forall l o', l <> self -> h1 !! l = Some o' -> hf !! l = Some o'.
Proof.
  intros Hcall Hself Hr Hrealign.
  pose proof (f_after_method method self other h r h1 o ro Hcall Hself Hr)
    as Hf.
  rewrite Hrealign in Hf. destruct Hf as (hf & Hf & Hval & Hframe).
  exists hf. split; [exact Hf |]. split; [exact Hval |].
  intros l o' Hl Ho'. rewrite (Hframe l Hl) by eauto. exact Ho'.
Qed.

End InPlaceOutcome.

(** ** The builder of the table, on any class *)

Section Builder.

Context {Mgr Operand : Type}.

Implicit Types (cls : class Mgr Operand).
Implicit Types (arith comp : primitive -> function Mgr Operand).

(** X14: the builder of the table asks nothing of the class but whether
    it is a 1-D labeled container, and never raises.  For any class and
    any two wrappers it returns a table of 24 entries for a 1-D type and
    of 22 for any other; the names are unique and none keeps an underscore
    at either end; every entry is the arithmetic or the comparison wrapper
    applied to a primitive. *)
Theorem builder_table_shape cls arith comp :
  exists tbl,
    _create_methods cls arith comp = inr tbl
    /\ List.NoDup (Dict.keys tbl)
    /\ List.length tbl = (if issubclass_ABCSeries cls then 24 else 22)
    /\ Forall (fun kv => PyStr.strip "_" (fst kv) = fst kv) tbl
    /\ Forall (fun kv => exists p, snd kv = arith p \/ snd kv = comp p) tbl.
Proof.
  rewrite _create_methods_table. eexists. split; [reflexivity |].
  destruct (issubclass_ABCSeries cls);
    (split; [apply NoDup_ListNoDup, (bool_decide_unpack _);
             vm_compute; reflexivity |]);
    (split; [reflexivity |]);
    (split; [each_item ltac:(reflexivity) |]);
    each_item ltac:(eexists; (left; reflexivity) || (right; reflexivity)).
Qed.

End Builder.

(** ** The further properties at the sample instance *)


Lemma pinning_twice_witness :
  _add_methods (_add_methods Sample.Series SampleMore.two_methods)
    SampleMore.two_methods
  = _add_methods Sample.Series SampleMore.two_methods.
Proof.
  apply (pinning_twice Sample.Series SampleMore.two_methods).
  apply NoDup_ListNoDup, (bool_decide_unpack _). vm_compute. reflexivity.
Defined.

Lemma flex_build_pins_witness :
  exists cls',
    add_flex_arithmetic_methods Sample.call_factory Sample.DataFrame
    = inr cls'
    /\ getattr cls' "__add__" = getattr Sample.DataFrame "__add__"
    /\ getattr cls' "divmod" = getattr Sample.DataFrame "divmod"
    /\ getattr cls' "radd"
       = inr (Sample.call_factory flex_arith_method_FRAME radd).
Proof.
  destruct (flex_build_pins Sample.call_factory Sample.DataFrame eq_refl)
    as (tbl & cls' & Htbl & Hbuild & _ & Hin & Hout & Hunder).
  exists cls'. split; [exact Hbuild |].
  rewrite (flex_new_methods_frame Sample.call_factory Sample.DataFrame
             eq_refl) in Htbl.
  injection Htbl as <-.
  split; [apply Hunder; reflexivity |].
  split; [apply Hout; reflexivity | apply Hin; reflexivity].
Defined.

Lemma flex_build_outcome_witness :
  (exists cls',
     add_flex_arithmetic_methods Sample.call_factory Sample.Series = inr cls')
  /\ add_flex_arithmetic_methods Sample.call_factory Sample.Index
     = inl (UnboundLocalError "arith_flex").
Proof.
  split.
  - destruct (flex_build_outcome Sample.call_factory Sample.Series)
      as [[Hpins _] _].
    apply Hpins. reflexivity.
  - destruct (flex_build_outcome Sample.call_factory Sample.Index)
      as (_ & Hother & _).
    apply Hother. reflexivity.
Defined.

Lemma flex_build_twice_witness :
  exists cls',
    add_flex_arithmetic_methods Sample.call_factory Sample.Series = inr cls'
    /\ add_flex_arithmetic_methods Sample.call_factory cls' = inr cls'.
Proof.
  eexists. split; [reflexivity |].
  apply (flex_build_twice Sample.call_factory Sample.Series). reflexivity.
Defined.

Lemma special_build_first_missing_witness :
  add_special_arithmetic_methods SampleMore.Partial
  = inl (AttributeError "__sub__").
Proof.
  apply (special_build_first_missing SampleMore.Partial "sub"). reflexivity.
Defined.

Lemma sample_has_special_methods (typ : string) :
  Forall (fun name =>
            is_Some (Dict.get (dunder name)
                       (namespace {| _typ := typ;
                                     namespace := Sample.special_methods |})))
         inplace_subset.
Proof. each_item ltac:(eexists; reflexivity). Qed.

Lemma special_build_pins_witness :
  exists cls',
    add_special_arithmetic_methods Sample.Index = inr cls'
    /\ _typ cls' = "index"
    /\ getattr cls' "__iadd__"
       = inr (_wrap_inplace_method (Sample.binop "__add__" Z.add))
    /\ getattr cls' "__add__" = inr (Sample.binop "__add__" Z.add)
    /\ getattr cls' "__eq__" = getattr Sample.Index "__eq__".
Proof.
  destruct (special_build_pins Sample.Index (sample_has_special_methods _))
    as (cls' & Hbuild & Htyp & Hentries & Hout).
  exists cls'. split; [exact Hbuild |]. split; [exact Htyp |].
  apply List.Forall_cons_iff in Hentries.
  destruct Hentries as [(method & Hget & Hkept & Hentry) _].
  injection Hget as <-.
  split; [exact Hentry |]. split; [exact Hkept |].
  apply Hout. simpl. intuition discriminate.
Defined.

Lemma special_build_twice_witness :
  exists cls',
    add_special_arithmetic_methods Sample.Series = inr cls'
    /\ add_special_arithmetic_methods cls' = inr cls'.
Proof.
  eexists. split; [reflexivity |].
  apply (special_build_twice Sample.Series). reflexivity.
Defined.

Lemma builds_commute_witness :
  exists flexed both inplaced both',
    add_flex_arithmetic_methods Sample.call_factory Sample.Series
    = inr flexed
    /\ add_special_arithmetic_methods flexed = inr both
    /\ add_special_arithmetic_methods Sample.Series = inr inplaced
    /\ add_flex_arithmetic_methods Sample.call_factory inplaced = inr both'
    /\ getattr both "__imul__" = getattr both' "__imul__"
    /\ getattr both "rmul" = getattr both' "rmul".
Proof.
  destruct (builds_commute Sample.call_factory Sample.Series eq_refl
              (sample_has_special_methods _))
    as (flexed & both & inplaced & both' & H1 & H2 & H3 & H4 & Hsame).
  exists flexed, both, inplaced, both'.
  repeat (split; [assumption |]). split; apply Hsame.
Defined.

Lemma inplace_binds_at_build_witness :
  exists cls',
    add_special_arithmetic_methods Sample.Series = inr cls'
    /\ getattr (setattr cls' "__add__" (Sample.binop "__add__" Z.max))
         "__iadd__"
       = inr (_wrap_inplace_method (Sample.binop "__add__" Z.add)).
Proof.
  destruct (add_special_arithmetic_methods_pins Sample.Series
              (sample_has_special_methods _))
    as (tbl & cls' & _ & Hbuild & _).
  exists cls'. split; [exact Hbuild |].
  destruct (inplace_binds_at_build Sample.Series cls' "add"
              (Sample.binop "__add__" Z.add) (Sample.binop "__add__" Z.max))
    as [Hold _].
  - exact Hbuild.
  - left. reflexivity.
  - reflexivity.
  - exact Hold.
Defined.

Lemma wrapper_name_witness :
  __name__ (_wrap_inplace_method (Sample.binop "__and___" Z.land))
  = "__iand__".
Proof.
  destruct (wrapper_name (Sample.binop "__and___" Z.land) "and_") as [H _].
  - reflexivity.
  - exact H.
Defined.

Lemma inplace_failed_realignment_witness :
  exists hf,
    __call__ Sample.iadd Sample.x (Sample.Container Sample.y) Sample.h_dup
    = Raise (ValueError "cannot reindex on an axis with duplicate labels") hf
    /\ hf !! Sample.x
       = Some {| _mgr := [(0, Some 1); (0, Some 2)]%Z; _cacher := None |}.
Proof.
  edestruct (inplace_failed_realignment (Sample.binop "__add__" Z.add)
               Sample.x (Sample.Container Sample.y) Sample.h_dup)
    as (hf & Hraise & Hself & _).
  - vm_compute. reflexivity.
  - vm_compute. reflexivity.
  - vm_compute. reflexivity.
  - vm_compute. reflexivity.
  - exists hf. split; [exact Hraise | exact Hself].
Defined.

Lemma inplace_success_frame_witness :
  exists hf,
    __call__ Sample.iadd Sample.x (Sample.Container Sample.y) Sample.h0
    = Ok Sample.x hf
    /\ hf !! Sample.x
       = Some {| _mgr := [(0, Some 2); (1, Some 3); (2, Some 4)]%Z;
                 _cacher := None |}
    /\ hf !! Sample.y = Sample.h0 !! Sample.y
    /\ hf !! Sample.parent = Sample.h0 !! Sample.parent.
Proof.
  edestruct (inplace_success_frame (Sample.binop "__add__" Z.add)
               Sample.x (Sample.Container Sample.y) Sample.h0)
    as (hf & Hret & Hself & Hframe).
  - vm_compute. reflexivity.
  - vm_compute. reflexivity.
  - vm_compute. reflexivity.
  - vm_compute. reflexivity.
  - exists hf. split; [exact Hret |]. split; [exact Hself |].
    split; (erewrite Hframe; [vm_compute; reflexivity | discriminate
                              | vm_compute; reflexivity]).
Defined.
